(** * easy_handeye2: the hand-eye calibration record and its persistence

    A shallow embedding of [easy_handeye2/handeye_calibration.py]:
    the parameter dataclass, the parameter provider bound to an rclpy
    node, the [HandeyeCalibration] object, its conversion to and from a
    nested dictionary, to and from YAML text, and to and from files.

    Python values the module receives from outside (the dictionary handed
    to [from_dict], the keyword arguments of the dataclass) are dynamically
    typed, so they are modelled by a universe [pyval]; a raised exception
    is the [Err] branch of [result]. *)

From Stdlib Require Import ZArith Ascii String List PrimFloat.
From stdpp Require Import base option gmap strings.

Local Open Scope string_scope.

(** ** Python values *)

(** The values [yaml.safe_load] can hand to [from_dict] and that a
    dataclass field can hold.  Dictionaries are keyed by strings: every
    key this module reads or writes is a string literal. *)
#[warnings="-register-all"]
Inductive pyval : Type :=
| PNone
| PBool (b : bool)
| PInt (z : Z)
| PFloat (f : float)
| PStr (s : string)
| PList (l : list pyval)
| PDict (d : gmap string pyval).

(** Truth value of an object, as tested by [if v:]. *)
Definition py_truthy (v : pyval) : bool :=
  match v with
  | PNone => false
  | PBool b => b
  | PInt z => negb (Z.eqb z 0)
  | PFloat f => negb (PrimFloat.eqb f 0%float)
  | PStr s => negb (String.eqb s "")
  | PList l => match l with [] => false | _ => true end
  | PDict d => negb (bool_decide (d = ∅))
  end.

(** [isinstance(v, str)], [isinstance(v, bool)], [isinstance(v, float)]. *)
Definition is_str (v : pyval) : bool :=
  match v with PStr _ => true | _ => false end.
Definition is_bool (v : pyval) : bool :=
  match v with PBool _ => true | _ => false end.
Definition is_float (v : pyval) : bool :=
  match v with PFloat _ => true | _ => false end.

(** ** Exceptions *)

Inductive type_error : Type :=
| not_subscriptable        (* v[k] on None, a bool, an int or a float *)
| bad_index                (* v['k'] on a str or a list *)
| not_a_mapping            (* a call with ** v, v not a dict *)
| unexpected_keyword       (* a call with ** d, d has a key that is no parameter *)
| missing_argument.        (* a call with ** d, d lacks a parameter without default *)

Inductive pyerr : Type :=
| KeyError (k : string)
| TypeError (why : type_error)
| AssertionError (field : string)
| AttributeError (attr : string)
| ValueError (msg : string)
| NameError (name : string)
| YAMLError
| OSError (path : string)
| ParameterNotDeclaredException (name : string)
| ParameterAlreadyDeclaredException (name : string).

Inductive result (A : Type) : Type :=
| Ok (a : A)
| Err (e : pyerr).
Arguments Ok {A} a.
Arguments Err {A} e.

Definition bind {A B : Type} (m : result A) (k : A -> result B) : result B :=
  match m with
  | Ok a => k a
  | Err e => Err e
  end.

Notation "x <- m ;; k" := (bind m (fun x => k))
  (at level 100, m at next level, right associativity, only parsing).

Definition raise {A : Type} (e : pyerr) : result A := Err e.

Definition is_ok {A : Type} (m : result A) : bool :=
  match m with Ok _ => true | Err _ => false end.

(** [v[k]] for a string key [k]. *)
Definition py_getitem (v : pyval) (k : string) : result pyval :=
  match v with
  | PDict d =>
      match d !! k with
      | Some x => Ok x
      | None => Err (KeyError k)
      end
  | PStr _ | PList _ => Err (TypeError bad_index)
  | PNone | PBool _ | PInt _ | PFloat _ => Err (TypeError not_subscriptable)
  end.

(** ** The parameter dataclass *)

(** [@dataclass class HandeyeCalibrationParameters].  The annotations
    ([str], [bool]) are not enforced by Python, so a field holds any value;
    [params_typed] below says that the fields hold what they are annotated
    with. *)
Record HandeyeCalibrationParameters : Type := {
  name : pyval;
  eye_in_hand : pyval;
  robot_base_frame : pyval;
  robot_effector_frame : pyval;
  tracking_base_frame : pyval;
  tracking_marker_frame : pyval;
  freehand_robot_movement : pyval;
  move_group_namespace : pyval;
  move_group : pyval
}.

(** The generated [__init__]: seven positional-or-keyword parameters and
    two with defaults; [None] for an argument that is not passed. *)
Definition HandeyeCalibrationParameters_init
    (a_name a_eye_in_hand a_robot_base_frame a_robot_effector_frame
     a_tracking_base_frame a_tracking_marker_frame
     a_freehand_robot_movement : pyval)
    (a_move_group_namespace a_move_group : option pyval)
  : HandeyeCalibrationParameters :=
  {| name := a_name;
     eye_in_hand := a_eye_in_hand;
     robot_base_frame := a_robot_base_frame;
     robot_effector_frame := a_robot_effector_frame;
     tracking_base_frame := a_tracking_base_frame;
     tracking_marker_frame := a_tracking_marker_frame;
     freehand_robot_movement := a_freehand_robot_movement;
     move_group_namespace := default (PStr "/") a_move_group_namespace;
     move_group := default (PStr "manipulator") a_move_group |}.

Definition required_fields : list string :=
  ["name"; "eye_in_hand"; "robot_base_frame"; "robot_effector_frame";
   "tracking_base_frame"; "tracking_marker_frame"; "freehand_robot_movement"].

Definition defaulted_fields : list string :=
  ["move_group_namespace"; "move_group"].

Definition field_names : list string := required_fields ++ defaulted_fields.

(** [HandeyeCalibrationParameters( ** v)]: [v] must be a mapping, each of
    its keys must name a parameter, and every parameter without a default
    must be there. *)
Definition HandeyeCalibrationParameters_kwargs (v : pyval)
  : result HandeyeCalibrationParameters :=
  match v with
  | PDict d =>
      if bool_decide (dom d ⊆ list_to_set field_names) then
        match d !! "name", d !! "eye_in_hand", d !! "robot_base_frame",
              d !! "robot_effector_frame", d !! "tracking_base_frame",
              d !! "tracking_marker_frame", d !! "freehand_robot_movement" with
        | Some n, Some e, Some rb, Some re, Some tb, Some tm, Some fr =>
            Ok (HandeyeCalibrationParameters_init n e rb re tb tm fr
                  (d !! "move_group_namespace") (d !! "move_group"))
        | _, _, _, _, _, _, _ => Err (TypeError missing_argument)
        end
      else Err (TypeError unexpected_keyword)
  | _ => Err (TypeError not_a_mapping)
  end.

(** [dataclasses.asdict]: every field name mapped to the field's value. *)
Definition asdict (p : HandeyeCalibrationParameters) : pyval :=
  PDict (list_to_map
    [("name", name p);
     ("eye_in_hand", eye_in_hand p);
     ("robot_base_frame", robot_base_frame p);
     ("robot_effector_frame", robot_effector_frame p);
     ("tracking_base_frame", tracking_base_frame p);
     ("tracking_marker_frame", tracking_marker_frame p);
     ("freehand_robot_movement", freehand_robot_movement p);
     ("move_group_namespace", move_group_namespace p);
     ("move_group", move_group p)]).

(** The fields hold values of the annotated types. *)
Definition params_typed (p : HandeyeCalibrationParameters) : bool :=
  is_str (name p) && is_bool (eye_in_hand p) &&
  is_str (robot_base_frame p) && is_str (robot_effector_frame p) &&
  is_str (tracking_base_frame p) && is_str (tracking_marker_frame p) &&
  is_bool (freehand_robot_movement p) &&
  is_str (move_group_namespace p) && is_str (move_group p).

(** ** ROS 2 messages

    The message classes of [geometry_msgs], [std_msgs] and
    [builtin_interfaces] are generated code outside this module; what is
    used of them is their fields, their defaults, and that a setter asserts
    the type of what it is given. *)

Definition assert_float (field : string) (v : pyval) : result float :=
  match v with
  | PFloat f => Ok f
  | _ => Err (AssertionError field)
  end.

Definition assert_str (field : string) (v : pyval) : result string :=
  match v with
  | PStr s => Ok s
  | _ => Err (AssertionError field)
  end.

Module Vector3.
Record t : Type := { x : float; y : float; z : float }.

Definition init (a_x a_y a_z : option pyval) : result t :=
  vx <- assert_float "x" (default (PFloat 0%float) a_x) ;;
  vy <- assert_float "y" (default (PFloat 0%float) a_y) ;;
  vz <- assert_float "z" (default (PFloat 0%float) a_z) ;;
  Ok {| x := vx; y := vy; z := vz |}.

(** [Vector3()] *)
Definition zero : t := {| x := 0%float; y := 0%float; z := 0%float |}.
End Vector3.

Module Quaternion.
Record t : Type := { x : float; y : float; z : float; w : float }.

Definition init (a_x a_y a_z a_w : option pyval) : result t :=
  vx <- assert_float "x" (default (PFloat 0%float) a_x) ;;
  vy <- assert_float "y" (default (PFloat 0%float) a_y) ;;
  vz <- assert_float "z" (default (PFloat 0%float) a_z) ;;
  vw <- assert_float "w" (default (PFloat 1%float) a_w) ;;
  Ok {| x := vx; y := vy; z := vz; w := vw |}.

(** [Quaternion()]: the identity rotation. *)
Definition identity : t :=
  {| x := 0%float; y := 0%float; z := 0%float; w := 1%float |}.
End Quaternion.

Module Transform.
Record t : Type := { translation : Vector3.t; rotation : Quaternion.t }.

Definition init (a_translation : option Vector3.t)
                (a_rotation : option Quaternion.t) : t :=
  {| translation := default Vector3.zero a_translation;
     rotation := default Quaternion.identity a_rotation |}.
End Transform.

Module Header.
Record t : Type := { stamp_sec : Z; stamp_nanosec : Z; frame_id : string }.

(** [Header()] *)
Definition empty : t := {| stamp_sec := 0; stamp_nanosec := 0; frame_id := "" |}.

(** [header.frame_id = v] *)
Definition set_frame_id (h : t) (v : pyval) : result t :=
  s <- assert_str "frame_id" v ;;
  Ok {| stamp_sec := stamp_sec h; stamp_nanosec := stamp_nanosec h;
        frame_id := s |}.
End Header.

Module TransformStamped.
Record t : Type := {
  header : Header.t;
  child_frame_id : string;
  transform : Transform.t
}.

Definition init (a_transform : option Transform.t) : t :=
  {| header := Header.empty;
     child_frame_id := "";
     transform := default (Transform.init None None) a_transform |}.

(** [m.header.frame_id = v] *)
Definition set_header_frame_id (m : t) (v : pyval) : result t :=
  h <- Header.set_frame_id (header m) v ;;
  Ok {| header := h; child_frame_id := child_frame_id m;
        transform := transform m |}.

(** [m.child_frame_id = v] *)
Definition set_child_frame_id (m : t) (v : pyval) : result t :=
  s <- assert_str "child_frame_id" v ;;
  Ok {| header := header m; child_frame_id := s;
        transform := transform m |}.
End TransformStamped.

(** ** HandeyeCalibration *)

Record HandeyeCalibration : Type := {
  parameters : HandeyeCalibrationParameters;
  transformation : TransformStamped.t
}.

(** [HandeyeCalibration.__init__(calibration_parameters=None,
    transformation=None)]. *)
Definition HandeyeCalibration_init
    (calibration_parameters : option HandeyeCalibrationParameters)
    (a_transformation : option Transform.t) : result HandeyeCalibration :=
  let a_transformation :=
    match a_transformation with
    | None => Transform.init None None
    | Some t => t
    end in
  let ts := TransformStamped.init (Some a_transformation) in
  match calibration_parameters with
  | None => Err (AttributeError "eye_in_hand")
  | Some p =>
      ts <- (if py_truthy (eye_in_hand p)
             then TransformStamped.set_header_frame_id ts (robot_effector_frame p)
             else TransformStamped.set_header_frame_id ts (robot_base_frame p)) ;;
      ts <- TransformStamped.set_child_frame_id ts (tracking_base_frame p) ;;
      Ok {| parameters := p; transformation := ts |}
  end.

(** Shorthands for the attributes of [calibration.transformation]. *)
Definition frame_id_of (c : HandeyeCalibration) : string :=
  Header.frame_id (TransformStamped.header (transformation c)).
Definition child_frame_id_of (c : HandeyeCalibration) : string :=
  TransformStamped.child_frame_id (transformation c).
Definition transform_of (c : HandeyeCalibration) : Transform.t :=
  TransformStamped.transform (transformation c).
Definition translation_of (c : HandeyeCalibration) : Vector3.t :=
  Transform.translation (transform_of c).
Definition rotation_of (c : HandeyeCalibration) : Quaternion.t :=
  Transform.rotation (transform_of c).

(** [HandeyeCalibration.to_dict] *)
Definition to_dict (calibration : HandeyeCalibration) : pyval :=
  PDict (list_to_map
    [("parameters", asdict (parameters calibration));
     ("transformation", PDict (list_to_map
        [("x", PFloat (Vector3.x (translation_of calibration)));
         ("y", PFloat (Vector3.y (translation_of calibration)));
         ("z", PFloat (Vector3.z (translation_of calibration)));
         ("qx", PFloat (Quaternion.x (rotation_of calibration)));
         ("qy", PFloat (Quaternion.y (rotation_of calibration)));
         ("qz", PFloat (Quaternion.z (rotation_of calibration)));
         ("qw", PFloat (Quaternion.w (rotation_of calibration)))]))]).

(** [HandeyeCalibration.from_dict].  Python evaluates the subscript
    [in_dict['transformation']] first, then the arguments of the
    constructor call from left to right. *)
Definition from_dict (in_dict : pyval) : result HandeyeCalibration :=
  tr <- py_getitem in_dict "transformation" ;;
  pd <- py_getitem in_dict "parameters" ;;
  p <- HandeyeCalibrationParameters_kwargs pd ;;
  vx <- py_getitem tr "x" ;;
  vy <- py_getitem tr "y" ;;
  vz <- py_getitem tr "z" ;;
  v <- Vector3.init (Some vx) (Some vy) (Some vz) ;;
  qx <- py_getitem tr "qx" ;;
  qy <- py_getitem tr "qy" ;;
  qz <- py_getitem tr "qz" ;;
  qw <- py_getitem tr "qw" ;;
  q <- Quaternion.init (Some qx) (Some qy) (Some qz) (Some qw) ;;
  HandeyeCalibration_init (Some p) (Some (Transform.init (Some v) (Some q))).

Definition cal1_parameters : HandeyeCalibrationParameters :=
  HandeyeCalibrationParameters_init
    (PStr "cal1") (PBool true) (PStr "base_link") (PStr "tool0")
    (PStr "camera_link") (PStr "marker") (PBool false) None None.

Definition cal1_transform : Transform.t :=
  {| Transform.translation := {| Vector3.x := 1%float; Vector3.y := 2%float; Vector3.z := 3%float |};
     Transform.rotation := Quaternion.identity |}.

(** ** The parameter provider *)

(** [rclpy.Parameter]: a parameter holds one typed value, or none.
    [get_parameter_value] turns it into the message
    [rcl_interfaces.msg.ParameterValue], whose fields other than the one
    of the parameter's type keep their defaults. *)
Module ParameterValue.
Record t : Type := { bool_value : bool; string_value : string }.
End ParameterValue.

Module RclParameter.
Inductive t : Type :=
| NOT_SET
| BOOL (b : bool)
| INTEGER (i : Z)
| DOUBLE (d : float)
| STRING (s : string).

Definition get_parameter_value (p : t) : ParameterValue.t :=
  match p with
  | BOOL b => {| ParameterValue.bool_value := b; ParameterValue.string_value := "" |}
  | STRING s => {| ParameterValue.bool_value := false; ParameterValue.string_value := s |}
  | NOT_SET | INTEGER _ | DOUBLE _ =>
      {| ParameterValue.bool_value := false; ParameterValue.string_value := "" |}
  end.
End RclParameter.

(** What the module uses of [rclpy.node.Node]. *)
Class RclpyNode (Node : Type) : Type := {
  declare_parameter : Node -> string -> result Node;
  get_parameter : Node -> string -> result RclParameter.t
}.

Section provider.
Context {Node : Type} `{!RclpyNode Node}.

(** [HandeyeCalibrationParametersProvider.__init__]: the node after the
    seven declarations. *)
Definition HandeyeCalibrationParametersProvider_init (node : Node)
  : result Node :=
  node <- declare_parameter node "name" ;;
  node <- declare_parameter node "eye_in_hand" ;;
  node <- declare_parameter node "robot_base_frame" ;;
  node <- declare_parameter node "robot_effector_frame" ;;
  node <- declare_parameter node "tracking_base_frame" ;;
  node <- declare_parameter node "tracking_marker_frame" ;;
  declare_parameter node "freehand_robot_movement".

Definition get_string (node : Node) (k : string) : result pyval :=
  v <- get_parameter node k ;;
  Ok (PStr (ParameterValue.string_value (RclParameter.get_parameter_value v))).

Definition get_bool (node : Node) (k : string) : result pyval :=
  v <- get_parameter node k ;;
  Ok (PBool (ParameterValue.bool_value (RclParameter.get_parameter_value v))).

(** [HandeyeCalibrationParametersProvider.read] *)
Definition read (node : Node) : result HandeyeCalibrationParameters :=
  a_name <- get_string node "name" ;;
  a_eye_in_hand <- get_bool node "eye_in_hand" ;;
  a_robot_base_frame <- get_string node "robot_base_frame" ;;
  a_robot_effector_frame <- get_string node "robot_effector_frame" ;;
  a_tracking_base_frame <- get_string node "tracking_base_frame" ;;
  a_tracking_marker_frame <- get_string node "tracking_marker_frame" ;;
  a_freehand_robot_movement <- get_bool node "freehand_robot_movement" ;;
  Ok (HandeyeCalibrationParameters_init
        a_name a_eye_in_hand a_robot_base_frame a_robot_effector_frame
        a_tracking_base_frame a_tracking_marker_frame
        a_freehand_robot_movement None None).
End provider.

(** ** YAML text and files *)

(** PyYAML: [yaml.dump(_, default_flow_style=False)] and [yaml.safe_load].
    What [yaml.safe_load] raises is not caught by the module: a
    [YAMLError] for malformed text, but also what the constructor of a
    scalar raises, such as [ValueError] for a date that does not exist. *)
Class PyYAML : Type := {
  yaml_dump : pyval -> string;
  yaml_safe_load : string -> result pyval
}.

(** The file system as the module touches it: [os.path.expanduser],
    [os.path.exists], [os.makedirs], reading a whole file and writing one.
    The flag of [os_makedirs] and [write_text] is false when the call
    raises.  [read_text] is [open(path)] followed by [read()]: the text,
    or whatever either of them raises (an [OSError] for a file that is
    not there, a [ValueError] for a path with a NUL character or for
    bytes that do not decode). *)
Class OS (FS : Type) : Type := {
  os_path_expanduser : string -> string;
  os_path_exists : FS -> string -> bool;
  os_makedirs : FS -> string -> FS * bool;
  read_text : FS -> string -> result string;
  write_text : FS -> string -> string -> FS * bool
}.

Section persistence.
Context `{!PyYAML}.

(** [HandeyeCalibration.to_yaml] *)
Definition to_yaml (calibration : HandeyeCalibration) : string :=
  yaml_dump (to_dict calibration).

(** [HandeyeCalibration.from_yaml] *)
Definition from_yaml (in_yaml : string) : result HandeyeCalibration :=
  d <- yaml_safe_load in_yaml ;;
  from_dict d.

Context {FS : Type} `{!OS FS}.

Definition DIRECTORY : string := os_path_expanduser "~/.ros2/easy_handeye".

(** [HandeyeCalibration.filename_for_namespace]: the statement after the
    [raise] mentions [namespace], which is not bound there. *)
Definition filename_for_namespace (a_name : pyval) : result string :=
  _ <- (raise (ValueError "TODO") : result unit) ;;
  raise (NameError "namespace").

(** [HandeyeCalibration.filename] *)
Definition filename (self : HandeyeCalibration) : result string :=
  _ <- (raise (ValueError "TODO") : result unit) ;;
  filename_for_namespace (name (parameters self)).

(** [HandeyeCalibration.to_file]: the file system afterwards and the
    outcome. *)
Definition to_file (fs : FS) (calibration : HandeyeCalibration)
  : FS * result unit :=
  let '(fs, made) :=
    if negb (os_path_exists fs DIRECTORY)
    then os_makedirs fs DIRECTORY
    else (fs, true) in
  if made then
    match filename calibration with
    | Ok path =>
        let '(fs, written) := write_text fs path (to_yaml calibration) in
        (fs, if written then Ok tt else Err (OSError path))
    | Err e => (fs, Err e)
    end
  else (fs, Err (OSError DIRECTORY)).

(** [with open(path) as calib_file: ... calib_file.read()] *)
Definition open_read (fs : FS) (path : string) : result string :=
  read_text fs path.

(** [HandeyeCalibration.from_file] *)
Definition from_file (fs : FS) (namespace : pyval) : result HandeyeCalibration :=
  path <- filename_for_namespace namespace ;;
  text <- open_read fs path ;;
  from_yaml text.

(** [HandeyeCalibration.from_filename] *)
Definition from_filename (fs : FS) (a_filename : string)
  : result HandeyeCalibration :=
  text <- open_read fs a_filename ;;
  from_yaml text.
End persistence.

(** ** The error taxonomy *)

Inductive error_kind : Type :=
| MissingConfiguration
| SchemaMismatch
| ParseError
| FilesystemError
| Unimplemented
| Unclassified.

(** Which kind of §7 an exception of the module belongs to: a missing key
    ([KeyError]), a value or an argument list of the wrong shape
    ([TypeError], and the type assertion of a message field) are schema
    mismatches. *)
Definition kind_of (e : pyerr) : error_kind :=
  match e with
  | KeyError _ | TypeError _ | AssertionError _ => SchemaMismatch
  | YAMLError => ParseError
  | OSError _ => FilesystemError
  | ValueError _ => Unimplemented
  | ParameterNotDeclaredException _ | ParameterAlreadyDeclaredException _ =>
      MissingConfiguration
  | AttributeError _ | NameError _ => Unclassified
  end.

Definition transformation_keys : list string :=
  ["x"; "y"; "z"; "qx"; "qy"; "qz"; "qw"].

(** ** Concrete collaborators for the examples *)

(** A calibration built by the constructor, with given parameters and
    transform; [cal1] is the record of the specification's example. *)
Definition cal1 : result HandeyeCalibration :=
  HandeyeCalibration_init (Some cal1_parameters) (Some cal1_transform).

Definition cal1_record : HandeyeCalibration :=
  {| parameters := cal1_parameters;
     transformation :=
       {| TransformStamped.header :=
            {| Header.stamp_sec := 0; Header.stamp_nanosec := 0;
               Header.frame_id := "tool0" |};
          TransformStamped.child_frame_id := "camera_link";
          TransformStamped.transform := cal1_transform |} |}.

(** A node whose parameters are a dictionary; an undeclared name raises,
    a declaration without value leaves the parameter unset. *)
Definition dict_get_parameter (node : gmap string RclParameter.t) (k : string)
  : result RclParameter.t :=
  match node !! k with
  | Some v => Ok v
  | None => Err (ParameterNotDeclaredException k)
  end.

Definition dict_declare_parameter (node : gmap string RclParameter.t)
    (k : string) : result (gmap string RclParameter.t) :=
  match node !! k with
  | Some _ => Err (ParameterAlreadyDeclaredException k)
  | None => Ok (<[k := RclParameter.NOT_SET]> node)
  end.

Definition dict_node : RclpyNode (gmap string RclParameter.t) :=
  {| declare_parameter := dict_declare_parameter;
     get_parameter := dict_get_parameter |}.

(** A node on which the seven names are set and, besides them, both
    move-group names. *)
Definition node1 : gmap string RclParameter.t :=
  list_to_map
    [("name", RclParameter.STRING "cal1");
     ("eye_in_hand", RclParameter.BOOL true);
     ("robot_base_frame", RclParameter.STRING "base_link");
     ("robot_effector_frame", RclParameter.STRING "tool0");
     ("tracking_base_frame", RclParameter.STRING "camera_link");
     ("tracking_marker_frame", RclParameter.STRING "marker");
     ("freehand_robot_movement", RclParameter.BOOL false);
     ("move_group_namespace", RclParameter.STRING "/left_arm");
     ("move_group", RclParameter.STRING "arm")].

(** The same node with other move-group values. *)
Definition node2 : gmap string RclParameter.t :=
  <["move_group" := RclParameter.STRING "gripper"]>
    (delete "move_group_namespace" node1).

(** The YAML text of [cal1_record], keys sorted as [yaml.dump] does. *)
Definition cal1_yaml : string :=
"parameters:
  eye_in_hand: true
  freehand_robot_movement: false
  move_group: manipulator
  move_group_namespace: /
  name: cal1
  robot_base_frame: base_link
  robot_effector_frame: tool0
  tracking_base_frame: camera_link
  tracking_marker_frame: marker
transformation:
  qw: 1.0
  qx: 0.0
  qy: 0.0
  qz: 0.0
  x: 1.0
  y: 2.0
  z: 3.0
".

(** A stand-in for PyYAML that knows this one document. *)
Definition one_document_yaml : PyYAML :=
  {| yaml_dump := fun _ => cal1_yaml;
     yaml_safe_load := fun text =>
       if String.eqb text cal1_yaml then Ok (to_dict cal1_record)
       else Err YAMLError |}.

(** The same stand-in, on which a date that does not exist raises what
    [datetime.date] raises. *)
Definition date_checking_yaml : PyYAML :=
  {| yaml_dump := fun _ => cal1_yaml;
     yaml_safe_load := fun text =>
       if String.eqb text "2001-02-30"
       then Err (ValueError "day is out of range for month")
       else @yaml_safe_load one_document_yaml text |}.

(** A file system: the directories and the files with their text. *)
Record simple_fs : Type := {
  fs_dirs : gset string;
  fs_files : gmap string string
}.

Definition simple_exists (fs : simple_fs) (path : string) : bool :=
  bool_decide (path ∈ fs_dirs fs) || bool_decide (is_Some (fs_files fs !! path)).

Definition simple_os : OS simple_fs :=
  {| os_path_expanduser := fun path =>
       match path with
       | String "~"%char rest => "/home/robot" ++ rest
       | _ => path
       end;
     os_path_exists := simple_exists;
     os_makedirs := fun fs path =>
       if simple_exists fs path then (fs, false)
       else ({| fs_dirs := {[ path ]} ∪ fs_dirs fs; fs_files := fs_files fs |}, true);
     read_text := fun fs path =>
       match fs_files fs !! path with
       | Some text => Ok text
       | None => Err (OSError path)
       end;
     write_text := fun fs path text =>
       if bool_decide (path ∈ fs_dirs fs) then (fs, false)
       else ({| fs_dirs := fs_dirs fs; fs_files := <[path := text]> (fs_files fs) |}, true) |}.

Definition fs1 : simple_fs :=
  {| fs_dirs := {[ "/tmp" ]};
     fs_files := {[ "/tmp/cal1.yaml" := cal1_yaml ]} |}.

(** ** Malformed dictionaries for the examples *)

(** A parameters dictionary with a misspelt field name. *)
Definition misspelt_parameters : gmap string pyval :=
  <["nmae" := PStr "cal1"]> ∅.

(** A parameters dictionary without [eye_in_hand] and the rest. *)
Definition incomplete_parameters : gmap string pyval :=
  <["name" := PStr "cal1"]> ∅.

Definition with_parameters (pd : gmap string pyval) : gmap string pyval :=
  list_to_map [("transformation", PNone); ("parameters", PDict pd)].

(** The seven components of [cal1_transform], and a dictionary as an
    earlier version of the module wrote it: without the two move-group
    fields. *)
Definition cal1_components : gmap string pyval :=
  list_to_map
    [("x", PFloat 1%float); ("y", PFloat 2%float); ("z", PFloat 3%float);
     ("qx", PFloat 0%float); ("qy", PFloat 0%float); ("qz", PFloat 0%float);
     ("qw", PFloat 1%float)].

Definition seven_parameters : gmap string pyval :=
  list_to_map
    [("name", PStr "cal1"); ("eye_in_hand", PBool true);
     ("robot_base_frame", PStr "base_link");
     ("robot_effector_frame", PStr "tool0");
     ("tracking_base_frame", PStr "camera_link");
     ("tracking_marker_frame", PStr "marker");
     ("freehand_robot_movement", PBool false)].

Definition seven_parameters_dict : gmap string pyval :=
  list_to_map
    [("parameters", PDict seven_parameters);
     ("transformation", PDict cal1_components)].

(** Parameters as a hand-edited file may give them: [eye_in_hand] is the
    string ['false']. *)
Definition quoted_false_parameters : HandeyeCalibrationParameters :=
  HandeyeCalibrationParameters_init
    (PStr "cal1") (PStr "false") (PStr "base_link") (PStr "tool0")
    (PStr "camera_link") (PStr "marker") (PBool false) None None.

(** A record after [c.transformation.header.frame_id = f] and
    [c.transformation.child_frame_id = ch]. *)
Definition with_frames (f ch : string) (c : HandeyeCalibration)
  : HandeyeCalibration :=
  {| parameters := parameters c;
     transformation :=
       {| TransformStamped.header :=
            {| Header.stamp_sec := Header.stamp_sec (TransformStamped.header (transformation c));
               Header.stamp_nanosec := Header.stamp_nanosec (TransformStamped.header (transformation c));
               Header.frame_id := f |};
          TransformStamped.child_frame_id := ch;
          TransformStamped.transform := transform_of c |} |}.

(** Parameters whose base frame is no string, with [eye_in_hand] true. *)
Definition unused_frame_parameters : HandeyeCalibrationParameters :=
  HandeyeCalibrationParameters_init
    (PStr "cal1") (PBool true) PNone (PStr "tool0")
    (PStr "camera_link") (PStr "marker") (PBool false) None None.


(** * Properties *)

(** ** The result monad *)

Lemma bind_Ok {A B : Type} (m : result A) (k : A -> result B) (b : B) :
  bind m k = Ok b -> exists a, m = Ok a /\ k a = Ok b.
Proof. destruct m as [a|e]; simpl; [eauto | discriminate]. Qed.

Lemma bind_Err {A B : Type} (m : result A) (k : A -> result B) (e : pyerr) :
  bind m k = Err e -> m = Err e \/ exists a, m = Ok a /\ k a = Err e.
Proof. destruct m as [a|e']; simpl; [eauto | intros [= ->]; auto]. Qed.

Example getitem_demo :
  py_getitem (PDict {[ "x" := PFloat 1%float ]}) "x" = Ok (PFloat 1%float).
Proof. reflexivity. Qed.

Example getitem_missing :
  py_getitem (PDict {[ "x" := PFloat 1%float ]}) "y" = Err (KeyError "y").
Proof. reflexivity. Qed.

Lemma py_getitem_Ok (v : pyval) (k : string) (x : pyval) :
  py_getitem v k = Ok x <-> exists d, v = PDict d /\ d !! k = Some x.
Proof.
  split.
  - destruct v; simpl; try discriminate.
    destruct (d !! k) eqn:E; [intros [= ->]; eauto | discriminate].
  - intros (d & -> & E). simpl. now rewrite E.
Qed.

Lemma py_getitem_error_kind (v : pyval) (k : string) (e : pyerr) :
  py_getitem v k = Err e -> kind_of e = SchemaMismatch.
Proof.
  destruct v; simpl; try (intros [= <-]; reflexivity).
  destruct (d !! k); [discriminate | intros [= <-]; reflexivity].
Qed.

(** ** The dataclass *)

Lemma is_str_PStr (v : pyval) : is_str v = true -> exists s, v = PStr s.
Proof. destruct v; try discriminate; eauto. Qed.

Lemma is_bool_PBool (v : pyval) : is_bool v = true -> exists b, v = PBool b.
Proof. destruct v; try discriminate; eauto. Qed.

Lemma params_typed_frames (p : HandeyeCalibrationParameters) :
  params_typed p = true ->
  exists b rb re tb,
    eye_in_hand p = PBool b /\ robot_base_frame p = PStr rb /\
    robot_effector_frame p = PStr re /\ tracking_base_frame p = PStr tb.
Proof.
  unfold params_typed. rewrite !andb_true_iff.
  intros ((((((((_ & He) & Hrb) & Hre) & Htb) & _) & _) & _) & _).
  apply is_bool_PBool in He as [b ->].
  apply is_str_PStr in Hrb as [rb ->], Hre as [re ->], Htb as [tb ->].
  now exists b, rb, re, tb.
Qed.

(** [asdict] has the nine field names as keys. *)
Lemma asdict_dom (p : HandeyeCalibrationParameters) :
  exists d, asdict p = PDict d /\ dom d = list_to_set field_names.
Proof.
  eexists; split; [reflexivity|].
  destruct p. vm_compute. reflexivity.
Qed.

(** Passing [asdict p] as keyword arguments rebuilds [p]. *)
Lemma kwargs_asdict (p : HandeyeCalibrationParameters) :
  HandeyeCalibrationParameters_kwargs (asdict p) = Ok p.
Proof. destruct p. vm_compute. reflexivity. Qed.

Lemma kwargs_error_kind (v : pyval) (e : pyerr) :
  HandeyeCalibrationParameters_kwargs v = Err e -> kind_of e = SchemaMismatch.
Proof.
  destruct v; simpl; try (intros [= <-]; reflexivity).
  case_bool_decide; [|intros [= <-]; reflexivity].
  repeat (match goal with
          | |- context [d !! ?k] => destruct (d !! k)
          end; try (intros [= <-]; reflexivity)).
Qed.

(** Keyword arguments without the two move-group names give the defaults. *)
Lemma kwargs_defaults (d : gmap string pyval) (p : HandeyeCalibrationParameters) :
  d !! "move_group_namespace" = None ->
  d !! "move_group" = None ->
  HandeyeCalibrationParameters_kwargs (PDict d) = Ok p ->
  move_group_namespace p = PStr "/" /\ move_group p = PStr "manipulator".
Proof.
  intros E1 E2. simpl. rewrite E1, E2.
  case_bool_decide; [|discriminate].
  repeat (match goal with
          | |- context [d !! ?k] => destruct (d !! k)
          end; try discriminate).
  intros [= <-]. split; reflexivity.
Qed.

(** ** Messages *)

(** The constructors without arguments give the default messages. *)
Lemma Vector3_init_default : Vector3.init None None None = Ok Vector3.zero.
Proof. reflexivity. Qed.

Lemma Quaternion_init_default :
  Quaternion.init None None None None = Ok Quaternion.identity.
Proof. reflexivity. Qed.

Lemma Transform_init_default :
  Transform.init None None =
  {| Transform.translation := Vector3.zero;
     Transform.rotation := Quaternion.identity |}.
Proof. reflexivity. Qed.

(** ** The constructor *)

(** What a successful construction returns. *)
Lemma HandeyeCalibration_init_Ok
    (p : HandeyeCalibrationParameters) (t : option Transform.t)
    (r : HandeyeCalibration) :
  HandeyeCalibration_init (Some p) t = Ok r ->
  parameters r = p /\
  transform_of r = default (Transform.init None None) t /\
  PStr (frame_id_of r) =
    (if py_truthy (eye_in_hand p) then robot_effector_frame p
     else robot_base_frame p) /\
  PStr (child_frame_id_of r) = tracking_base_frame p.
Proof.
  unfold HandeyeCalibration_init.
  intros H. apply bind_Ok in H as (ts1 & H1 & H).
  apply bind_Ok in H as (ts2 & H2 & [= <-]).
  unfold TransformStamped.set_child_frame_id, assert_str in H2.
  destruct (tracking_base_frame p) as [| | | |c| |]; try discriminate.
  injection H2 as <-.
  assert (forall v, TransformStamped.set_header_frame_id
            (TransformStamped.init
               (Some match t with Some t0 => t0 | None => Transform.init None None end)) v
            = Ok ts1 ->
          v = PStr (Header.frame_id (TransformStamped.header ts1)) /\
          TransformStamped.transform ts1 = default (Transform.init None None) t) as Hset.
  { intros v. unfold TransformStamped.set_header_frame_id, Header.set_frame_id, assert_str.
    destruct v; try discriminate. simpl. intros [= <-]. simpl.
    destruct t; auto. }
  unfold frame_id_of, child_frame_id_of, transform_of; simpl.
  destruct (py_truthy (eye_in_hand p));
    apply Hset in H1 as [-> ->]; auto.
Qed.

(** Construction succeeds as soon as the frame names involved are strings. *)
Lemma HandeyeCalibration_init_total
    (p : HandeyeCalibrationParameters) (t : option Transform.t) :
  is_str (if py_truthy (eye_in_hand p) then robot_effector_frame p
          else robot_base_frame p) = true ->
  is_str (tracking_base_frame p) = true ->
  exists r, HandeyeCalibration_init (Some p) t = Ok r.
Proof.
  intros Hf Hc.
  apply is_str_PStr in Hc as [c Hc].
  unfold HandeyeCalibration_init.
  destruct (py_truthy (eye_in_hand p));
    apply is_str_PStr in Hf as [f Hf]; rewrite Hf, Hc; simpl; eauto.
Qed.

Lemma HandeyeCalibration_init_typed
    (p : HandeyeCalibrationParameters) (t : option Transform.t) :
  params_typed p = true ->
  exists r, HandeyeCalibration_init (Some p) t = Ok r.
Proof.
  intros (b & rb & re & tb & He & Hrb & Hre & Htb)%params_typed_frames.
  apply HandeyeCalibration_init_total.
  - rewrite He, Hrb, Hre. now destruct b.
  - now rewrite Htb.
Qed.

Lemma HandeyeCalibration_init_error_kind
    (p : HandeyeCalibrationParameters) (t : option Transform.t) (e : pyerr) :
  HandeyeCalibration_init (Some p) t = Err e -> kind_of e = SchemaMismatch.
Proof.
  unfold HandeyeCalibration_init.
  intros [H | (ts1 & _ & [H | (ts2 & _ & H)]%bind_Err)]%bind_Err;
    try discriminate.
  - unfold TransformStamped.set_header_frame_id, Header.set_frame_id, assert_str in H.
    destruct (py_truthy (eye_in_hand p));
      [destruct (robot_effector_frame p) | destruct (robot_base_frame p)];
      simpl in H; (discriminate || (injection H as <-; reflexivity)).
  - unfold TransformStamped.set_child_frame_id, assert_str in H.
    destruct (tracking_base_frame p); simpl in H;
      (discriminate || (injection H as <-; reflexivity)).
Qed.

(** ** Dictionary conversion *)

(** [from_dict] after [to_dict] is the constructor applied to the
    parameters and the transform of the record. *)
Lemma from_dict_to_dict_init (r : HandeyeCalibration) :
  from_dict (to_dict r) =
  HandeyeCalibration_init (Some (parameters r)) (Some (transform_of r)).
Proof.
  destruct r as [p [h c [[x y z] [qx qy qz qw]]]].
  unfold from_dict, to_dict.
  change (py_getitem _ "transformation") with
    (Ok (PDict (list_to_map
      [("x", PFloat x); ("y", PFloat y); ("z", PFloat z);
       ("qx", PFloat qx); ("qy", PFloat qy); ("qz", PFloat qz);
       ("qw", PFloat qw)]))).
  change (py_getitem _ "parameters") with (Ok (asdict p)).
  cbn [bind]. rewrite kwargs_asdict. cbn [bind].
  reflexivity.
Qed.

(** The dictionary carries neither [frame_id] nor [child_frame_id]. *)
Lemma to_dict_ignores_frames (r1 r2 : HandeyeCalibration) :
  parameters r1 = parameters r2 ->
  transform_of r1 = transform_of r2 ->
  to_dict r1 = to_dict r2.
Proof.
  unfold to_dict, translation_of, rotation_of. now intros -> ->.
Qed.

(** C1: for a record [r] whose parameters are typed as annotated,
    [from_dict (to_dict r)] is a record with the parameters of [r], the
    translation and rotation components of [r], and with [frame_id] and
    [child_frame_id] derived from the parameters of [r]: the effector
    frame if [eye_in_hand], the base frame otherwise, and the tracking
    base frame.  The frames of [r] itself play no part, since [to_dict]
    is the same for any record with these parameters and this
    transform. *)
Theorem from_dict_to_dict_roundtrip (r : HandeyeCalibration) :
  params_typed (parameters r) = true ->
  (exists r',
     from_dict (to_dict r) = Ok r' /\
     parameters r' = parameters r /\
     translation_of r' = translation_of r /\
     rotation_of r' = rotation_of r /\
     PStr (frame_id_of r') =
       (if py_truthy (eye_in_hand (parameters r))
        then robot_effector_frame (parameters r)
        else robot_base_frame (parameters r)) /\
     PStr (child_frame_id_of r') = tracking_base_frame (parameters r)) /\
  (forall r2, parameters r2 = parameters r -> transform_of r2 = transform_of r ->
     to_dict r2 = to_dict r).
Proof.
  intros Ht. split; [|intros r2 Hp Htr; now apply to_dict_ignores_frames].
  rewrite from_dict_to_dict_init.
  destruct (HandeyeCalibration_init_typed (parameters r) (Some (transform_of r)) Ht)
    as [r' Hr'].
  exists r'. split; [exact Hr'|].
  apply HandeyeCalibration_init_Ok in Hr' as (Hp & Htr & Hf & Hc).
  unfold translation_of, rotation_of. rewrite Htr. simpl. auto.
Qed.

Lemma from_dict_to_dict_roundtrip_cal1 :
  params_typed (parameters cal1_record) = true /\
  exists r',
    from_dict (to_dict cal1_record) = Ok r' /\
    parameters r' = parameters cal1_record /\
    translation_of r' = translation_of cal1_record /\
    rotation_of r' = rotation_of cal1_record /\
    PStr (frame_id_of r') =
      (if py_truthy (eye_in_hand (parameters cal1_record))
       then robot_effector_frame (parameters cal1_record)
       else robot_base_frame (parameters cal1_record)) /\
    PStr (child_frame_id_of r') = tracking_base_frame (parameters cal1_record).
Proof.
  split; [reflexivity|].
  apply (from_dict_to_dict_roundtrip cal1_record). reflexivity.
Defined.

Example cal1_constructed : cal1 = Ok cal1_record.
Proof. reflexivity. Qed.

Example cal1_roundtrip : from_dict (to_dict cal1_record) = Ok cal1_record.
Proof. vm_compute. reflexivity. Qed.

(** A record whose frames were overwritten comes back with the derived ones. *)
Example roundtrip_rederives_frames :
  from_dict (to_dict
    {| parameters := cal1_parameters;
       transformation :=
         {| TransformStamped.header :=
              {| Header.stamp_sec := 7; Header.stamp_nanosec := 0;
                 Header.frame_id := "world" |};
            TransformStamped.child_frame_id := "elsewhere";
            TransformStamped.transform := cal1_transform |} |})
  = Ok cal1_record.
Proof. vm_compute. reflexivity. Qed.

(** ** Construction *)

(** C4: constructing a record from typed parameters [p] and a transform
    [t] succeeds; [frame_id] is [p.robot_effector_frame] when
    [p.eye_in_hand] is true and [p.robot_base_frame] when it is false, and
    [child_frame_id] is [p.tracking_base_frame]. *)
Theorem init_frame_derivation
    (p : HandeyeCalibrationParameters) (t : Transform.t) :
  params_typed p = true ->
  exists r,
    HandeyeCalibration_init (Some p) (Some t) = Ok r /\
    (eye_in_hand p = PBool true -> PStr (frame_id_of r) = robot_effector_frame p) /\
    (eye_in_hand p = PBool false -> PStr (frame_id_of r) = robot_base_frame p) /\
    PStr (child_frame_id_of r) = tracking_base_frame p.
Proof.
  intros Ht.
  destruct (HandeyeCalibration_init_typed p (Some t) Ht) as [r Hr].
  exists r. split; [exact Hr|].
  apply HandeyeCalibration_init_Ok in Hr as (_ & _ & Hf & Hc).
  repeat split; [intros E | intros E | exact Hc]; now rewrite E in Hf.
Qed.

Lemma init_frame_derivation_cal1 :
  params_typed cal1_parameters = true /\
  exists r,
    HandeyeCalibration_init (Some cal1_parameters) (Some cal1_transform) = Ok r /\
    (eye_in_hand cal1_parameters = PBool true ->
     PStr (frame_id_of r) = robot_effector_frame cal1_parameters) /\
    (eye_in_hand cal1_parameters = PBool false ->
     PStr (frame_id_of r) = robot_base_frame cal1_parameters) /\
    PStr (child_frame_id_of r) = tracking_base_frame cal1_parameters.
Proof.
  split; [reflexivity|].
  apply (init_frame_derivation cal1_parameters cal1_transform). reflexivity.
Defined.

Example eye_on_base_frame :
  frame_id_of <$>
    (match HandeyeCalibration_init
             (Some (HandeyeCalibrationParameters_init
                      (PStr "cal2") (PBool false) (PStr "base_link") (PStr "tool0")
                      (PStr "camera_link") (PStr "marker") (PBool true) None None))
             None with
     | Ok r => Some r
     | Err _ => None
     end) = Some "base_link".
Proof. reflexivity. Qed.

(** C7: whatever the seven required fields, parameters constructed without
    [move_group_namespace] and [move_group] hold ['/'] and
    ['manipulator'] there. *)
Theorem init_move_group_defaults
    (a_name a_eye_in_hand a_robot_base_frame a_robot_effector_frame
     a_tracking_base_frame a_tracking_marker_frame
     a_freehand_robot_movement : pyval) :
  let p := HandeyeCalibrationParameters_init
             a_name a_eye_in_hand a_robot_base_frame a_robot_effector_frame
             a_tracking_base_frame a_tracking_marker_frame
             a_freehand_robot_movement None None in
  move_group_namespace p = PStr "/" /\ move_group p = PStr "manipulator".
Proof. split; reflexivity. Qed.

(** C8: constructing a record from typed parameters [p] without a
    transform succeeds, and the transform of the record is the default
    one: translation [(0, 0, 0)] and the default rotation of
    [Quaternion()]. *)
Theorem init_default_transform (p : HandeyeCalibrationParameters) :
  params_typed p = true ->
  exists r,
    HandeyeCalibration_init (Some p) None = Ok r /\
    parameters r = p /\
    Vector3.x (translation_of r) = 0%float /\
    Vector3.y (translation_of r) = 0%float /\
    Vector3.z (translation_of r) = 0%float /\
    rotation_of r = Quaternion.identity.
Proof.
  intros Ht.
  destruct (HandeyeCalibration_init_typed p None Ht) as [r Hr].
  exists r. split; [exact Hr|].
  apply HandeyeCalibration_init_Ok in Hr as (Hp & Htr & _ & _).
  unfold translation_of, rotation_of. rewrite Htr. simpl. auto.
Qed.

Lemma init_default_transform_cal1 :
  params_typed cal1_parameters = true /\
  exists r,
    HandeyeCalibration_init (Some cal1_parameters) None = Ok r /\
    parameters r = cal1_parameters /\
    Vector3.x (translation_of r) = 0%float /\
    Vector3.y (translation_of r) = 0%float /\
    Vector3.z (translation_of r) = 0%float /\
    rotation_of r = Quaternion.identity.
Proof.
  split; [reflexivity|].
  apply (init_default_transform cal1_parameters). reflexivity.
Defined.

(** C10: without parameters the constructor fails, whatever the transform:
    it reads [eye_in_hand] from [None]; so no record comes out of it. *)
Theorem init_without_parameters (t : option Transform.t) :
  HandeyeCalibration_init None t = Err (AttributeError "eye_in_hand") /\
  forall r, HandeyeCalibration_init None t <> Ok r.
Proof. split; [reflexivity | discriminate]. Qed.

(** ** The shape of the dictionary *)

(** C9: [to_dict r] is a dictionary with the two keys ['parameters'] and
    ['transformation']; the first holds a dictionary whose keys are the
    nine field names, each with the value of the field; the second holds
    a dictionary whose keys are [x, y, z, qx, qy, qz, qw], with the
    components of the translation and of the rotation. *)
Theorem to_dict_shape (r : HandeyeCalibration) :
  exists top pm tm : gmap string pyval,
    to_dict r = PDict top /\
    dom top = {[ "parameters"; "transformation" ]} /\
    top !! "parameters" = Some (PDict pm) /\
    top !! "transformation" = Some (PDict tm) /\
    dom pm = list_to_set field_names /\
    pm !! "name" = Some (name (parameters r)) /\
    pm !! "eye_in_hand" = Some (eye_in_hand (parameters r)) /\
    pm !! "robot_base_frame" = Some (robot_base_frame (parameters r)) /\
    pm !! "robot_effector_frame" = Some (robot_effector_frame (parameters r)) /\
    pm !! "tracking_base_frame" = Some (tracking_base_frame (parameters r)) /\
    pm !! "tracking_marker_frame" = Some (tracking_marker_frame (parameters r)) /\
    pm !! "freehand_robot_movement" = Some (freehand_robot_movement (parameters r)) /\
    pm !! "move_group_namespace" = Some (move_group_namespace (parameters r)) /\
    pm !! "move_group" = Some (move_group (parameters r)) /\
    dom tm = list_to_set transformation_keys /\
    tm !! "x" = Some (PFloat (Vector3.x (translation_of r))) /\
    tm !! "y" = Some (PFloat (Vector3.y (translation_of r))) /\
    tm !! "z" = Some (PFloat (Vector3.z (translation_of r))) /\
    tm !! "qx" = Some (PFloat (Quaternion.x (rotation_of r))) /\
    tm !! "qy" = Some (PFloat (Quaternion.y (rotation_of r))) /\
    tm !! "qz" = Some (PFloat (Quaternion.z (rotation_of r))) /\
    tm !! "qw" = Some (PFloat (Quaternion.w (rotation_of r))).
Proof.
  destruct r as [p [h c [[x y z] [qx qy qz qw]]]].
  destruct p.
  do 3 eexists. split; [reflexivity|].
  repeat split; vm_compute; reflexivity.
Qed.

Example to_dict_cal1_x :
  (tr <- py_getitem (to_dict cal1_record) "transformation" ;; py_getitem tr "x")
  = Ok (PFloat 1%float).
Proof. reflexivity. Qed.

(** ** Failures of [from_dict] *)

Lemma assert_float_error_kind (field : string) (v : pyval) (e : pyerr) :
  assert_float field v = Err e -> kind_of e = SchemaMismatch.
Proof. destruct v; simpl; intros [= <-]; reflexivity. Qed.

Lemma Vector3_init_error_kind (a b c : option pyval) (e : pyerr) :
  Vector3.init a b c = Err e -> kind_of e = SchemaMismatch.
Proof.
  unfold Vector3.init.
  intros [H | (? & _ & [H | (? & _ & [H | (? & _ & H)]%bind_Err)]%bind_Err)]%bind_Err;
    solve [discriminate | eapply assert_float_error_kind; eassumption].
Qed.

Lemma Quaternion_init_error_kind (a b c d : option pyval) (e : pyerr) :
  Quaternion.init a b c d = Err e -> kind_of e = SchemaMismatch.
Proof.
  unfold Quaternion.init.
  intros [H | (? & _ & [H | (? & _ & [H | (? & _ & [H | (? & _ & H)]%bind_Err)]%bind_Err)]%bind_Err)]%bind_Err;
    solve [discriminate | eapply assert_float_error_kind; eassumption].
Qed.

Create HintDb schema.

#[local] Hint Resolve py_getitem_error_kind kwargs_error_kind
  Vector3_init_error_kind Quaternion_init_error_kind
  HandeyeCalibration_init_error_kind : schema.

(** Every exception of [from_dict] is a schema mismatch: a [KeyError],
    a [TypeError] or the type assertion of a message field. *)
Lemma from_dict_error_kind (in_dict : pyval) (e : pyerr) :
  from_dict in_dict = Err e -> kind_of e = SchemaMismatch.
Proof.
  unfold from_dict. intros H.
  do 12 (apply bind_Err in H as [H | (? & _ & H)]; [eauto with schema|]).
  eauto with schema.
Qed.

(** When [from_dict] returns, the input was a dictionary with a
    ['transformation'] dictionary that has all seven keys. *)
Lemma from_dict_Ok_keys (in_dict : pyval) (r : HandeyeCalibration) :
  from_dict in_dict = Ok r ->
  exists m tr : gmap string pyval,
    in_dict = PDict m /\ m !! "transformation" = Some (PDict tr) /\
    forall k, k ∈ transformation_keys -> is_Some (tr !! k).
Proof.
  unfold from_dict. intros H.
  apply bind_Ok in H as (tr & Htr & H).
  apply py_getitem_Ok in Htr as (m & -> & Hm).
  apply bind_Ok in H as (pd & _ & H).
  apply bind_Ok in H as (p & _ & H).
  apply bind_Ok in H as (vx & Hx & H).
  apply py_getitem_Ok in Hx as (d & -> & Hx).
  apply bind_Ok in H as (vy & (? & [= <-] & Hy)%py_getitem_Ok & H).
  apply bind_Ok in H as (vz & (? & [= <-] & Hz)%py_getitem_Ok & H).
  apply bind_Ok in H as (v & _ & H).
  apply bind_Ok in H as (qx & (? & [= <-] & Hqx)%py_getitem_Ok & H).
  apply bind_Ok in H as (qy & (? & [= <-] & Hqy)%py_getitem_Ok & H).
  apply bind_Ok in H as (qz & (? & [= <-] & Hqz)%py_getitem_Ok & H).
  apply bind_Ok in H as (qw & (? & [= <-] & Hqw)%py_getitem_Ok & H).
  exists m, d. repeat split; [exact Hm|].
  intros k Hk. unfold transformation_keys in Hk.
  repeat (apply elem_of_cons in Hk as [-> | Hk]; [eauto|]).
  now apply elem_of_nil in Hk.
Qed.

(** C5: on a dictionary [m] without the key ['transformation'],
    [from_dict] raises [KeyError('transformation')]; on one whose
    ['transformation'] dictionary lacks one of [x, y, z, qx, qy, qz, qw],
    it raises too; and in both cases what it raises is a schema mismatch
    (a missing key or a value of the wrong type), no other kind of
    error. *)
Theorem from_dict_missing_key (m : gmap string pyval) :
  (m !! "transformation" = None ->
   from_dict (PDict m) = Err (KeyError "transformation")) /\
  ((m !! "transformation" = None \/
    exists (tr : gmap string pyval) (k : string),
      m !! "transformation" = Some (PDict tr) /\
      k ∈ transformation_keys /\ tr !! k = None) ->
   exists e, from_dict (PDict m) = Err e /\ kind_of e = SchemaMismatch).
Proof.
  split.
  - intros E. unfold from_dict. simpl. now rewrite E.
  - intros Hmiss.
    destruct (from_dict (PDict m)) as [r|e] eqn:Hfd.
    + exfalso.
      apply from_dict_Ok_keys in Hfd as (m' & tr' & [= <-] & Hm & Hall).
      destruct Hmiss as [E | (tr & k & E & Hk & Hnone)]; [congruence|].
      rewrite Hm in E. injection E as ->.
      apply Hall in Hk as [? Hk]. congruence.
    + exists e. split; [reflexivity|]. eapply from_dict_error_kind, Hfd.
Qed.

(** The dictionary of [cal1_record] without the ['transformation'] entry,
    and with a ['transformation'] entry that lacks [qw]. *)
Lemma from_dict_missing_key_cal1 :
  from_dict (PDict {[ "parameters" := asdict cal1_parameters ]})
    = Err (KeyError "transformation") /\
  exists e,
    from_dict (PDict (list_to_map
      [("parameters", asdict cal1_parameters);
       ("transformation", PDict (list_to_map
          [("x", PFloat 1%float); ("y", PFloat 2%float); ("z", PFloat 3%float);
           ("qx", PFloat 0%float); ("qy", PFloat 0%float);
           ("qz", PFloat 0%float)]))])) = Err e /\
    kind_of e = SchemaMismatch.
Proof.
  split.
  - apply (proj1 (from_dict_missing_key _)). reflexivity.
  - apply (proj2 (from_dict_missing_key _)). right.
    eexists _, "qw". split; [reflexivity|]. split; [|reflexivity].
    unfold transformation_keys. repeat constructor.
Defined.

Example from_dict_lacks_qw :
  from_dict (PDict (list_to_map
    [("parameters", asdict cal1_parameters);
     ("transformation", PDict (list_to_map
        [("x", PFloat 1%float); ("y", PFloat 2%float); ("z", PFloat 3%float);
         ("qx", PFloat 0%float); ("qy", PFloat 0%float);
         ("qz", PFloat 0%float)]))])) = Err (KeyError "qw").
Proof. vm_compute. reflexivity. Qed.

(** An integer where a float is expected is met before the missing key. *)
Example from_dict_int_before_missing :
  from_dict (PDict (list_to_map
    [("parameters", asdict cal1_parameters);
     ("transformation", PDict (list_to_map
        [("x", PInt 1); ("y", PFloat 2%float); ("z", PFloat 3%float);
         ("qx", PFloat 0%float); ("qy", PFloat 0%float);
         ("qz", PFloat 0%float)]))])) = Err (AssertionError "x").
Proof. vm_compute. reflexivity. Qed.

(** ** The parameter provider *)

Section provider_properties.
Context {Node : Type} `{!RclpyNode Node}.

Lemma get_string_Ok (node : Node) (k : string) (v : pyval) :
  get_string node k = Ok v ->
  exists q, get_parameter node k = Ok q /\
    v = PStr (ParameterValue.string_value (RclParameter.get_parameter_value q)).
Proof.
  unfold get_string. intros (q & Hq & [= <-])%bind_Ok. eauto.
Qed.

Lemma get_bool_Ok (node : Node) (k : string) (v : pyval) :
  get_bool node k = Ok v ->
  exists q, get_parameter node k = Ok q /\
    v = PBool (ParameterValue.bool_value (RclParameter.get_parameter_value q)).
Proof.
  unfold get_bool. intros (q & Hq & [= <-])%bind_Ok. eauto.
Qed.

(** [read] asks the node for the seven required names and nothing else:
    nodes that answer alike on them are read alike. *)
Lemma read_ext (node node' : Node) :
  (forall k, k ∈ required_fields -> get_parameter node' k = get_parameter node k) ->
  read node' = read node.
Proof.
  intros Hagree. unfold read, get_string, get_bool, required_fields in *.
  rewrite !Hagree by repeat constructor. reflexivity.
Qed.

(** What [read] returns is typed as the dataclass is annotated. *)
Lemma read_typed (node : Node) (ret : HandeyeCalibrationParameters) :
  read node = Ok ret -> params_typed ret = true.
Proof.
  unfold read. intros H.
  apply bind_Ok in H as (? & (? & _ & ->)%get_string_Ok & H).
  apply bind_Ok in H as (? & (? & _ & ->)%get_bool_Ok & H).
  apply bind_Ok in H as (? & (? & _ & ->)%get_string_Ok & H).
  apply bind_Ok in H as (? & (? & _ & ->)%get_string_Ok & H).
  apply bind_Ok in H as (? & (? & _ & ->)%get_string_Ok & H).
  apply bind_Ok in H as (? & (? & _ & ->)%get_string_Ok & H).
  apply bind_Ok in H as (? & (? & _ & ->)%get_bool_Ok & H).
  injection H as <-. reflexivity.
Qed.

(** When the seven names are declared, [read] returns. *)
Lemma read_total (node : Node) :
  (forall k, k ∈ required_fields -> exists q, get_parameter node k = Ok q) ->
  exists ret, read node = Ok ret.
Proof.
  intros Hdecl. unfold read, get_string, get_bool, required_fields in *.
  destruct (Hdecl "name") as [? E1]; [repeat constructor|].
  destruct (Hdecl "eye_in_hand") as [? E2]; [repeat constructor|].
  destruct (Hdecl "robot_base_frame") as [? E3]; [repeat constructor|].
  destruct (Hdecl "robot_effector_frame") as [? E4]; [repeat constructor|].
  destruct (Hdecl "tracking_base_frame") as [? E5]; [repeat constructor|].
  destruct (Hdecl "tracking_marker_frame") as [? E6]; [repeat constructor|].
  destruct (Hdecl "freehand_robot_movement") as [? E7]; [repeat constructor|].
  rewrite E1, E2, E3, E4, E5, E6, E7. simpl. eauto.
Qed.

(** C6: in the record that [read] returns, each of the seven required
    fields is the string or boolean value of the node's parameter of
    that name, and [move_group_namespace] and [move_group] hold the
    defaults ['/'] and ['manipulator']; the result depends on the node
    through these seven parameters only, so that parameters named
    [move_group_namespace] or [move_group] on the node change nothing. *)
Theorem read_seven_names (node : Node) :
  (forall ret, read node = Ok ret ->
     move_group_namespace ret = PStr "/" /\
     move_group ret = PStr "manipulator" /\
     (exists q1 q2 q3 q4 q5 q6 q7,
        get_parameter node "name" = Ok q1 /\
        get_parameter node "eye_in_hand" = Ok q2 /\
        get_parameter node "robot_base_frame" = Ok q3 /\
        get_parameter node "robot_effector_frame" = Ok q4 /\
        get_parameter node "tracking_base_frame" = Ok q5 /\
        get_parameter node "tracking_marker_frame" = Ok q6 /\
        get_parameter node "freehand_robot_movement" = Ok q7 /\
        name ret = PStr (ParameterValue.string_value (RclParameter.get_parameter_value q1)) /\
        eye_in_hand ret = PBool (ParameterValue.bool_value (RclParameter.get_parameter_value q2)) /\
        robot_base_frame ret = PStr (ParameterValue.string_value (RclParameter.get_parameter_value q3)) /\
        robot_effector_frame ret = PStr (ParameterValue.string_value (RclParameter.get_parameter_value q4)) /\
        tracking_base_frame ret = PStr (ParameterValue.string_value (RclParameter.get_parameter_value q5)) /\
        tracking_marker_frame ret = PStr (ParameterValue.string_value (RclParameter.get_parameter_value q6)) /\
        freehand_robot_movement ret = PBool (ParameterValue.bool_value (RclParameter.get_parameter_value q7)))) /\
  (forall node' : Node,
     (forall k, k ∈ required_fields -> get_parameter node' k = get_parameter node k) ->
     read node' = read node).
Proof.
  split; [|apply read_ext].
  intros ret H. unfold read in H.
  apply bind_Ok in H as (? & (q1 & E1 & ->)%get_string_Ok & H).
  apply bind_Ok in H as (? & (q2 & E2 & ->)%get_bool_Ok & H).
  apply bind_Ok in H as (? & (q3 & E3 & ->)%get_string_Ok & H).
  apply bind_Ok in H as (? & (q4 & E4 & ->)%get_string_Ok & H).
  apply bind_Ok in H as (? & (q5 & E5 & ->)%get_string_Ok & H).
  apply bind_Ok in H as (? & (q6 & E6 & ->)%get_string_Ok & H).
  apply bind_Ok in H as (? & (q7 & E7 & ->)%get_bool_Ok & H).
  injection H as <-. simpl.
  split; [reflexivity|]. split; [reflexivity|].
  exists q1, q2, q3, q4, q5, q6, q7. repeat split; assumption.
Qed.
End provider_properties.

(** On [node1], where the move-group names are set to other values, the
    record read holds the defaults; [node2], which differs from [node1] in
    the move-group names only, is read alike. *)
Lemma read_seven_names_node1 :
  @read _ dict_node node1 = Ok cal1_parameters /\
  move_group_namespace cal1_parameters = PStr "/" /\
  move_group cal1_parameters = PStr "manipulator" /\
  @read _ dict_node node2 = @read _ dict_node node1.
Proof.
  split; [reflexivity|].
  destruct (@read_seven_names _ dict_node node1) as [Hread Hext].
  destruct (Hread cal1_parameters eq_refl) as (Hns & Hmg & _).
  split; [exact Hns|]. split; [exact Hmg|].
  apply Hext. intros k Hk. unfold required_fields in Hk.
  repeat (apply elem_of_cons in Hk as [-> | Hk]; [reflexivity|]).
  now apply elem_of_nil in Hk.
Defined.

Example node1_move_group_is_set :
  @get_parameter _ dict_node node1 "move_group" = Ok (RclParameter.STRING "arm").
Proof. reflexivity. Qed.

(** After the seven declarations on a node without values, [read] returns
    empty strings and [False]. *)
Example read_after_declarations :
  (node <- @HandeyeCalibrationParametersProvider_init _ dict_node ∅ ;;
   @read _ dict_node node) =
  Ok (HandeyeCalibrationParameters_init
        (PStr "") (PBool false) (PStr "") (PStr "") (PStr "") (PStr "")
        (PBool false) None None).
Proof. vm_compute. reflexivity. Qed.

Example read_undeclared :
  @read _ dict_node ∅ = Err (ParameterNotDeclaredException "name").
Proof. reflexivity. Qed.

(** ** YAML text *)

Section yaml_properties.
Context {yaml : PyYAML}.

(** An exception of [from_yaml] is the one [yaml.safe_load] raised, or a
    schema mismatch of [from_dict]. *)
Lemma from_yaml_error (in_yaml : string) (e : pyerr) :
  from_yaml in_yaml = Err e ->
  yaml_safe_load in_yaml = Err e \/ kind_of e = SchemaMismatch.
Proof.
  unfold from_yaml. intros [H | (d & _ & H)]%bind_Err.
  - now left.
  - right. eapply from_dict_error_kind, H.
Qed.

(** What [yaml.safe_load] raises reaches the caller of [from_yaml]. *)
Lemma from_yaml_malformed (in_yaml : string) (e : pyerr) :
  yaml_safe_load in_yaml = Err e -> from_yaml in_yaml = Err e.
Proof. unfold from_yaml. now intros ->. Qed.

(** C2: for a record [r] with typed parameters whose dictionary the YAML
    library writes and reads back unchanged, [from_yaml (to_yaml r)] is
    what [from_dict (to_dict r)] is: a record with the parameters and
    the translation and rotation components of [r], and with
    [frame_id] and [child_frame_id] derived from the parameters. *)
Theorem from_yaml_to_yaml_roundtrip (r : HandeyeCalibration) :
  params_typed (parameters r) = true ->
  yaml_safe_load (yaml_dump (to_dict r)) = Ok (to_dict r) ->
  from_yaml (to_yaml r) = from_dict (to_dict r) /\
  exists r',
    from_yaml (to_yaml r) = Ok r' /\
    parameters r' = parameters r /\
    translation_of r' = translation_of r /\
    rotation_of r' = rotation_of r /\
    PStr (frame_id_of r') =
      (if py_truthy (eye_in_hand (parameters r))
       then robot_effector_frame (parameters r)
       else robot_base_frame (parameters r)) /\
    PStr (child_frame_id_of r') = tracking_base_frame (parameters r).
Proof.
  intros Ht Hyaml.
  assert (from_yaml (to_yaml r) = from_dict (to_dict r)) as E.
  { unfold from_yaml, to_yaml. now rewrite Hyaml. }
  split; [exact E|]. rewrite E.
  rewrite from_dict_to_dict_init.
  destruct (HandeyeCalibration_init_typed (parameters r) (Some (transform_of r)) Ht)
    as [r' Hr'].
  exists r'. split; [exact Hr'|].
  apply HandeyeCalibration_init_Ok in Hr' as (Hp & Htr & Hf & Hc).
  unfold translation_of, rotation_of. rewrite Htr. simpl. auto.
Qed.
End yaml_properties.

Lemma from_yaml_to_yaml_roundtrip_cal1 :
  params_typed (parameters cal1_record) = true /\
  @yaml_safe_load one_document_yaml
    (@yaml_dump one_document_yaml (to_dict cal1_record))
    = Ok (to_dict cal1_record) /\
  @from_yaml one_document_yaml (@to_yaml one_document_yaml cal1_record)
    = from_dict (to_dict cal1_record).
Proof.
  split; [reflexivity|]. split; [reflexivity|].
  apply (@from_yaml_to_yaml_roundtrip one_document_yaml cal1_record); reflexivity.
Defined.

Example to_yaml_cal1 : @to_yaml one_document_yaml cal1_record = cal1_yaml.
Proof. reflexivity. Qed.

Example from_yaml_cal1 : @from_yaml one_document_yaml cal1_yaml = Ok cal1_record.
Proof. vm_compute. reflexivity. Qed.

(** An exception of the YAML library comes out of [from_yaml] as it is. *)
Example from_yaml_impossible_date :
  @from_yaml date_checking_yaml "2001-02-30"
  = Err (ValueError "day is out of range for month").
Proof. reflexivity. Qed.

(** ** Files *)

Section file_properties.
Context {yaml : PyYAML} {FS : Type} {os : OS FS}.

Lemma filename_raises (self : HandeyeCalibration) :
  filename self = Err (ValueError "TODO").
Proof. reflexivity. Qed.

Lemma filename_for_namespace_raises (a_name : pyval) :
  filename_for_namespace a_name = Err (ValueError "TODO").
Proof. reflexivity. Qed.

(** [to_file] fails; it has created the directory by then if that was
    missing and could be made. *)
Lemma to_file_fails (fs : FS) (calibration : HandeyeCalibration) :
  to_file fs calibration =
    if os_path_exists fs DIRECTORY then (fs, Err (ValueError "TODO"))
    else
      let '(fs', made) := os_makedirs fs DIRECTORY in
      (fs', Err (if made then ValueError "TODO" else OSError DIRECTORY)).
Proof.
  unfold to_file. rewrite filename_raises.
  destruct (os_path_exists fs DIRECTORY); simpl; [reflexivity|].
  destruct (os_makedirs fs DIRECTORY) as [fs' []]; reflexivity.
Qed.

Lemma from_filename_reads (fs : FS) (path text : string) :
  read_text fs path = Ok text ->
  from_filename fs path = from_yaml text.
Proof. unfold from_filename, open_read. now intros ->. Qed.

(** An exception of [from_filename] was raised by reading the file or by
    [yaml.safe_load] on its text, or it is a schema mismatch of
    [from_dict]. *)
Lemma from_filename_error (fs : FS) (path : string) (e : pyerr) :
  from_filename fs path = Err e ->
  read_text fs path = Err e \/
  (exists text, read_text fs path = Ok text /\ yaml_safe_load text = Err e) \/
  kind_of e = SchemaMismatch.
Proof.
  unfold from_filename, open_read.
  intros [H | (text & Htext & [H | H]%from_yaml_error)]%bind_Err; eauto.
Qed.

(** C3: [filename] and [filename_for_namespace] raise
    [ValueError('TODO')] on every input; hence [to_file] fails on every
    file system and record, and [from_file] on every file system and
    name; [from_filename] does not go through them: on a path that holds
    a text it is [from_yaml] of that text, and it raises
    [ValueError('TODO')] only if reading the file or [yaml.safe_load]
    on its text raised just that. *)
Theorem path_derivation_unimplemented :
  (forall self, filename self = Err (ValueError "TODO")) /\
  (forall a_name, filename_for_namespace a_name = Err (ValueError "TODO")) /\
  (forall (fs : FS) calibration,
     exists e, snd (to_file fs calibration) = Err e /\
               (e = ValueError "TODO" \/ e = OSError DIRECTORY)) /\
  (forall (fs : FS) namespace, from_file fs namespace = Err (ValueError "TODO")) /\
  (forall (fs : FS) path text,
     read_text fs path = Ok text -> from_filename fs path = from_yaml text) /\
  (forall (fs : FS) path,
     read_text fs path <> Err (ValueError "TODO") ->
     (forall text, read_text fs path = Ok text ->
                   yaml_safe_load text <> Err (ValueError "TODO")) ->
     from_filename fs path <> Err (ValueError "TODO")).
Proof.
  split; [exact filename_raises|].
  split; [exact filename_for_namespace_raises|].
  split; [|split; [|split]].
  - intros fs c. rewrite to_file_fails.
    destruct (os_path_exists fs DIRECTORY); simpl; [eauto|].
    destruct (os_makedirs fs DIRECTORY) as [fs' []]; simpl; eauto.
  - intros fs ns. reflexivity.
  - exact from_filename_reads.
  - intros fs path Hread Hload
      [H | [(text & Htext & H) | H]]%from_filename_error.
    + now apply Hread.
    + now apply (Hload text).
    + discriminate.
Qed.
End file_properties.

(** On [fs1] the file [/tmp/cal1.yaml] is loaded by [from_filename],
    a file that is not there gives the exception of [open], and
    [from_file] fails on the default path. *)
Lemma path_derivation_unimplemented_fs1 :
  @read_text _ simple_os fs1 "/tmp/cal1.yaml" = Ok cal1_yaml /\
  @from_filename one_document_yaml _ simple_os fs1 "/tmp/cal1.yaml" = Ok cal1_record /\
  @from_file one_document_yaml _ simple_os fs1 (PStr "cal1") = Err (ValueError "TODO") /\
  @read_text _ simple_os fs1 "/tmp/cal2.yaml" = Err (OSError "/tmp/cal2.yaml") /\
  @from_filename one_document_yaml _ simple_os fs1 "/tmp/cal2.yaml"
    <> Err (ValueError "TODO").
Proof.
  destruct (@path_derivation_unimplemented one_document_yaml _ simple_os)
    as (_ & _ & _ & Hfrom_file & Hread & Hnot).
  split; [reflexivity|].
  split; [|split; [apply Hfrom_file|]].
  - rewrite (Hread fs1 "/tmp/cal1.yaml" cal1_yaml eq_refl).
    vm_compute. reflexivity.
  - split; [reflexivity|].
    apply (Hnot fs1 "/tmp/cal2.yaml").
    + vm_compute. discriminate.
    + intros text Htext. vm_compute in Htext. discriminate.
Defined.

Example DIRECTORY_simple :
  @DIRECTORY _ simple_os = "/home/robot/.ros2/easy_handeye".
Proof. reflexivity. Qed.

(** [to_file] leaves the new directory behind and writes nothing. *)
Example to_file_fs1 :
  @to_file one_document_yaml _ simple_os fs1 cal1_record =
  ({| fs_dirs := {[ "/home/robot/.ros2/easy_handeye" ]} ∪ {[ "/tmp" ]};
      fs_files := {[ "/tmp/cal1.yaml" := cal1_yaml ]} |},
   Err (ValueError "TODO")).
Proof. vm_compute. reflexivity. Qed.

(** * Further properties of the module *)

(** ** What [from_dict] accepts and what it rejects *)

(** A successful keyword call: the keys are field names, the seven
    required ones are there, and the record is built from the entries. *)
Lemma kwargs_Ok (d : gmap string pyval) (p : HandeyeCalibrationParameters) :
  HandeyeCalibrationParameters_kwargs (PDict d) = Ok p ->
  dom d ⊆ list_to_set field_names /\
  exists n e rb re tb tm fr,
    d !! "name" = Some n /\ d !! "eye_in_hand" = Some e /\
    d !! "robot_base_frame" = Some rb /\ d !! "robot_effector_frame" = Some re /\
    d !! "tracking_base_frame" = Some tb /\ d !! "tracking_marker_frame" = Some tm /\
    d !! "freehand_robot_movement" = Some fr /\
    p = HandeyeCalibrationParameters_init n e rb re tb tm fr
          (d !! "move_group_namespace") (d !! "move_group").
Proof.
  simpl. case_bool_decide as Hdom; [|discriminate].
  destruct (d !! "name") as [n|]; [|discriminate].
  destruct (d !! "eye_in_hand") as [e|]; [|discriminate].
  destruct (d !! "robot_base_frame") as [rb|]; [|discriminate].
  destruct (d !! "robot_effector_frame") as [re|]; [|discriminate].
  destruct (d !! "tracking_base_frame") as [tb|]; [|discriminate].
  destruct (d !! "tracking_marker_frame") as [tm|]; [|discriminate].
  destruct (d !! "freehand_robot_movement") as [fr|]; [|discriminate].
  intros [= <-]. split; [exact Hdom|].
  exists n, e, rb, re, tb, tm, fr. repeat split; reflexivity.
Qed.

Lemma assert_float_Ok (field : string) (v : pyval) (f : float) :
  assert_float field v = Ok f -> v = PFloat f.
Proof. destruct v; simpl; intros [= <-]; reflexivity. Qed.

Lemma Vector3_init_Ok (a b c : pyval) (v : Vector3.t) :
  Vector3.init (Some a) (Some b) (Some c) = Ok v ->
  a = PFloat (Vector3.x v) /\ b = PFloat (Vector3.y v) /\ c = PFloat (Vector3.z v).
Proof.
  unfold Vector3.init. simpl.
  intros (? & ->%assert_float_Ok & (? & ->%assert_float_Ok
    & (? & ->%assert_float_Ok & [= <-])%bind_Ok)%bind_Ok)%bind_Ok.
  auto.
Qed.

Lemma Quaternion_init_Ok (a b c d : pyval) (q : Quaternion.t) :
  Quaternion.init (Some a) (Some b) (Some c) (Some d) = Ok q ->
  a = PFloat (Quaternion.x q) /\ b = PFloat (Quaternion.y q) /\
  c = PFloat (Quaternion.z q) /\ d = PFloat (Quaternion.w q).
Proof.
  unfold Quaternion.init. simpl.
  intros (? & ->%assert_float_Ok & (? & ->%assert_float_Ok
    & (? & ->%assert_float_Ok & (? & ->%assert_float_Ok
    & [= <-])%bind_Ok)%bind_Ok)%bind_Ok)%bind_Ok.
  auto.
Qed.

(** Everything a successful [from_dict] has gone through. *)
Lemma from_dict_Ok_inv (in_dict : pyval) (r : HandeyeCalibration) :
  from_dict in_dict = Ok r ->
  exists (m pd tr : gmap string pyval) p v q,
    in_dict = PDict m /\
    m !! "transformation" = Some (PDict tr) /\
    m !! "parameters" = Some (PDict pd) /\
    HandeyeCalibrationParameters_kwargs (PDict pd) = Ok p /\
    tr !! "x" = Some (PFloat (Vector3.x v)) /\
    tr !! "y" = Some (PFloat (Vector3.y v)) /\
    tr !! "z" = Some (PFloat (Vector3.z v)) /\
    tr !! "qx" = Some (PFloat (Quaternion.x q)) /\
    tr !! "qy" = Some (PFloat (Quaternion.y q)) /\
    tr !! "qz" = Some (PFloat (Quaternion.z q)) /\
    tr !! "qw" = Some (PFloat (Quaternion.w q)) /\
    HandeyeCalibration_init (Some p)
      (Some {| Transform.translation := v; Transform.rotation := q |}) = Ok r.
Proof.
  unfold from_dict. intros H.
  apply bind_Ok in H as (trv & (m & -> & Hm)%py_getitem_Ok & H).
  apply bind_Ok in H as (pdv & (? & [= <-] & Hp)%py_getitem_Ok & H).
  apply bind_Ok in H as (p & Hkw & H).
  assert (exists pd, pdv = PDict pd) as [pd ->].
  { destruct pdv; try discriminate. eauto. }
  apply bind_Ok in H as (vx & (tr & -> & Hx)%py_getitem_Ok & H).
  apply bind_Ok in H as (vy & (? & [= <-] & Hy)%py_getitem_Ok & H).
  apply bind_Ok in H as (vz & (? & [= <-] & Hz)%py_getitem_Ok & H).
  apply bind_Ok in H as (v & (-> & -> & ->)%Vector3_init_Ok & H).
  apply bind_Ok in H as (qx & (? & [= <-] & Hqx)%py_getitem_Ok & H).
  apply bind_Ok in H as (qy & (? & [= <-] & Hqy)%py_getitem_Ok & H).
  apply bind_Ok in H as (qz & (? & [= <-] & Hqz)%py_getitem_Ok & H).
  apply bind_Ok in H as (qw & (? & [= <-] & Hqw)%py_getitem_Ok & H).
  apply bind_Ok in H as (q & (-> & -> & -> & ->)%Quaternion_init_Ok & H).
  exists m, pd, tr, p, v, q. repeat split; assumption.
Qed.

(** X1: on a dictionary that has a ['transformation'] entry, whatever it
    holds, but no ['parameters'] entry, [from_dict] raises
    [KeyError('parameters')]: the parameters are looked up before the
    transformation is looked into. *)
Theorem from_dict_missing_parameters (m : gmap string pyval) (tr : pyval) :
  m !! "transformation" = Some tr ->
  m !! "parameters" = None ->
  from_dict (PDict m) = Err (KeyError "parameters").
Proof.
  intros Ht Hp. unfold from_dict. simpl. rewrite Ht. simpl. now rewrite Hp.
Qed.

Lemma from_dict_missing_parameters_demo :
  from_dict (PDict {[ "transformation" := PStr "not even a mapping" ]})
  = Err (KeyError "parameters").
Proof.
  apply (from_dict_missing_parameters _ (PStr "not even a mapping"));
    reflexivity.
Defined.

(** X2: [from_dict] of a value that is no dictionary (for instance
    [None], which is what an empty YAML document loads as, or a list or a
    string) raises a [TypeError]. *)
Theorem from_dict_not_a_dict (v : pyval) :
  (forall d, v <> PDict d) ->
  exists why, from_dict v = Err (TypeError why) /\
    (why = not_subscriptable \/ why = bad_index).
Proof.
  intros Hv. destruct v; unfold from_dict; simpl; eauto.
  now destruct (Hv d).
Qed.

Lemma from_dict_not_a_dict_None :
  exists why, from_dict PNone = Err (TypeError why) /\
    (why = not_subscriptable \/ why = bad_index).
Proof. apply from_dict_not_a_dict. discriminate. Defined.

(** X3: with both top-level entries present, a ['parameters'] entry that
    is no dictionary, that has a key which is no field name, or that has
    only field names but lacks one of the seven fields without default,
    makes [from_dict] raise a [TypeError], whatever the transformation. *)
Theorem from_dict_bad_parameters (m : gmap string pyval) (tr pv : pyval) :
  m !! "transformation" = Some tr ->
  m !! "parameters" = Some pv ->
  ((forall d, pv <> PDict d) ->
   from_dict (PDict m) = Err (TypeError not_a_mapping)) /\
  (forall (d : gmap string pyval) k,
     pv = PDict d -> is_Some (d !! k) -> k ∉ field_names ->
     from_dict (PDict m) = Err (TypeError unexpected_keyword)) /\
  (forall (d : gmap string pyval) k,
     pv = PDict d -> dom d ⊆ list_to_set field_names ->
     k ∈ required_fields -> d !! k = None ->
     from_dict (PDict m) = Err (TypeError missing_argument)).
Proof.
  intros Ht Hp. unfold from_dict. simpl. rewrite Ht. simpl. rewrite Hp. simpl.
  split; [|split].
  - intros Hpv. destruct pv; try reflexivity. now destruct (Hpv d).
  - intros d k -> Hk Hnf. unfold HandeyeCalibrationParameters_kwargs.
    case_bool_decide as Hdom; [|reflexivity].
    exfalso. apply Hnf. apply elem_of_dom in Hk. apply Hdom in Hk.
    now apply elem_of_list_to_set in Hk.
  - intros d k -> Hdom Hk Hnone. unfold HandeyeCalibrationParameters_kwargs.
    rewrite bool_decide_true by exact Hdom.
    unfold required_fields in Hk.
    repeat (apply elem_of_cons in Hk as [-> | Hk];
            [rewrite Hnone;
             repeat (match goal with
                     | |- context [d !! ?j] => destruct (d !! j)
                     end); reflexivity|]).
    now apply elem_of_nil in Hk.
Qed.

Lemma from_dict_bad_parameters_demo :
  from_dict (PDict (with_parameters misspelt_parameters))
    = Err (TypeError unexpected_keyword) /\
  from_dict (PDict (with_parameters incomplete_parameters))
    = Err (TypeError missing_argument).
Proof.
  split.
  - apply (proj1 (proj2 (from_dict_bad_parameters
                           (with_parameters misspelt_parameters) PNone
                           (PDict misspelt_parameters) eq_refl eq_refl))
             misspelt_parameters "nmae" eq_refl).
    + vm_compute. eauto.
    + unfold field_names, required_fields, defaulted_fields. simpl.
      intros Hk. repeat (apply elem_of_cons in Hk as [Hk | Hk]; [discriminate|]).
      now apply elem_of_nil in Hk.
  - apply (proj2 (proj2 (from_dict_bad_parameters
                           (with_parameters incomplete_parameters) PNone
                           (PDict incomplete_parameters) eq_refl eq_refl))
             incomplete_parameters "eye_in_hand" eq_refl).
    + apply (proj1 (bool_decide_eq_true
               (dom incomplete_parameters ⊆ list_to_set field_names))).
      vm_compute. reflexivity.
    + unfold required_fields. repeat constructor.
    + reflexivity.
Defined.

(** X4: a dictionary written without [move_group_namespace] or without
    [move_group] is still read by [from_dict], and a field that is absent
    comes out with its default, ['/'] or ['manipulator']; a field that is
    present comes out as written. *)
Theorem from_dict_move_group_defaults
    (m pd : gmap string pyval) (r : HandeyeCalibration) :
  m !! "parameters" = Some (PDict pd) ->
  from_dict (PDict m) = Ok r ->
  move_group_namespace (parameters r)
    = default (PStr "/") (pd !! "move_group_namespace") /\
  move_group (parameters r)
    = default (PStr "manipulator") (pd !! "move_group").
Proof.
  intros Hpd Hfd.
  apply from_dict_Ok_inv in Hfd
    as (m' & pd' & tr & p & v & q & [= <-] & _ & Hpd' & Hkw & _ & _ & _ & _ & _ & _ & _ & Hinit).
  rewrite Hpd in Hpd'. injection Hpd' as <-.
  apply HandeyeCalibration_init_Ok in Hinit as (-> & _).
  apply kwargs_Ok in Hkw as (_ & n & e & rb & re & tb & tm & fr & _ & _ & _ & _ & _ & _ & _ & ->).
  split; reflexivity.
Qed.

Lemma from_dict_move_group_defaults_demo :
  from_dict (PDict seven_parameters_dict) = Ok cal1_record /\
  move_group_namespace (parameters cal1_record) = PStr "/" /\
  move_group (parameters cal1_record) = PStr "manipulator".
Proof.
  assert (from_dict (PDict seven_parameters_dict) = Ok cal1_record) as E
    by (vm_compute; reflexivity).
  split; [exact E|].
  apply (from_dict_move_group_defaults seven_parameters_dict seven_parameters
           cal1_record eq_refl E).
Defined.

(** X5: [from_dict] looks at the two top-level keys and at the seven
    component keys only: an entry under any other top-level key, or under
    any other key of the ['transformation'] dictionary, does not change
    its result. *)
Theorem from_dict_ignores_extra_keys (m : gmap string pyval) (k : string) (v : pyval) :
  (k <> "parameters" -> k <> "transformation" ->
   from_dict (PDict (<[k := v]> m)) = from_dict (PDict m)) /\
  (forall tr : gmap string pyval,
     m !! "transformation" = Some (PDict tr) ->
     k ∉ transformation_keys ->
     from_dict (PDict (<["transformation" := PDict (<[k := v]> tr)]> m))
     = from_dict (PDict m)).
Proof.
  split.
  - intros Hp Ht. unfold from_dict. simpl.
    rewrite !lookup_insert_ne by congruence. reflexivity.
  - intros tr Hm Hk. unfold from_dict. simpl.
    rewrite lookup_insert_eq, Hm. simpl.
    rewrite lookup_insert_ne by discriminate.
    assert (forall j, j ∈ transformation_keys -> <[k := v]> tr !! j = tr !! j) as Hj.
    { intros j Hin. apply lookup_insert_ne. now intros ->. }
    unfold transformation_keys in Hj.
    rewrite !Hj by repeat constructor. reflexivity.
Qed.

Lemma from_dict_ignores_extra_keys_demo :
  from_dict (PDict (<["comment" := PStr "taken on Monday"]> seven_parameters_dict))
    = from_dict (PDict seven_parameters_dict) /\
  from_dict (PDict (<["transformation" :=
                        PDict (<["roll" := PFloat 0%float]> cal1_components)]>
                      seven_parameters_dict))
    = from_dict (PDict seven_parameters_dict).
Proof.
  split.
  - apply (proj1 (from_dict_ignores_extra_keys _ "comment" _)); discriminate.
  - apply (proj2 (from_dict_ignores_extra_keys seven_parameters_dict "roll" _)
             cal1_components eq_refl).
    unfold transformation_keys. intros Hk.
    repeat (apply elem_of_cons in Hk as [Hk | Hk]; [discriminate|]).
    now apply elem_of_nil in Hk.
Defined.

(** X12: the keyword call of the dataclass succeeds exactly when every
    key of the dictionary is a field name and the seven fields without
    default are among the keys. *)
Theorem kwargs_succeeds_iff (d : gmap string pyval) :
  is_ok (HandeyeCalibrationParameters_kwargs (PDict d)) = true <->
  dom d ⊆ list_to_set field_names /\
  forall k, k ∈ required_fields -> is_Some (d !! k).
Proof.
  split.
  - destruct (HandeyeCalibrationParameters_kwargs (PDict d)) as [p|] eqn:E;
      [intros _ | discriminate].
    apply kwargs_Ok in E
      as (Hdom & n & e & rb & re & tb & tm & fr & H1 & H2 & H3 & H4 & H5 & H6 & H7 & _).
    split; [exact Hdom|].
    intros k Hk. unfold required_fields in Hk.
    repeat (apply elem_of_cons in Hk as [-> | Hk]; [eauto|]).
    now apply elem_of_nil in Hk.
  - intros [Hdom Hreq]. unfold HandeyeCalibrationParameters_kwargs.
    rewrite bool_decide_true by exact Hdom.
    unfold required_fields in Hreq.
    destruct (Hreq "name") as [? ->]; [repeat constructor|].
    destruct (Hreq "eye_in_hand") as [? ->]; [repeat constructor|].
    destruct (Hreq "robot_base_frame") as [? ->]; [repeat constructor|].
    destruct (Hreq "robot_effector_frame") as [? ->]; [repeat constructor|].
    destruct (Hreq "tracking_base_frame") as [? ->]; [repeat constructor|].
    destruct (Hreq "tracking_marker_frame") as [? ->]; [repeat constructor|].
    destruct (Hreq "freehand_robot_movement") as [? ->]; [repeat constructor|].
    reflexivity.
Qed.

Lemma kwargs_succeeds_iff_demo :
  is_ok (HandeyeCalibrationParameters_kwargs (PDict seven_parameters)) = true /\
  dom seven_parameters ⊆ list_to_set field_names /\
  forall k, k ∈ required_fields -> is_Some (seven_parameters !! k).
Proof.
  split; [reflexivity|].
  apply (proj1 (kwargs_succeeds_iff seven_parameters)). reflexivity.
Defined.

(** ** The constructor on untyped parameters *)

(** X6: the constructor tests the truth value of [eye_in_hand], not
    whether it is [True]: with any value that counts as true (a non-empty
    string, even ['false'], or a non-zero number) [frame_id] is the
    effector frame, with any value that counts as false ([None], [0],
    the empty string) it is the base frame. *)
Theorem init_frame_by_truth_value
    (p : HandeyeCalibrationParameters) (t : option Transform.t)
    (r : HandeyeCalibration) :
  HandeyeCalibration_init (Some p) t = Ok r ->
  (py_truthy (eye_in_hand p) = true ->
   PStr (frame_id_of r) = robot_effector_frame p) /\
  (py_truthy (eye_in_hand p) = false ->
   PStr (frame_id_of r) = robot_base_frame p).
Proof.
  intros (_ & _ & Hf & _)%HandeyeCalibration_init_Ok.
  split; intros E; now rewrite E in Hf.
Qed.

Lemma init_frame_by_truth_value_demo :
  is_ok (HandeyeCalibration_init (Some quoted_false_parameters) None) = true /\
  forall r, HandeyeCalibration_init (Some quoted_false_parameters) None = Ok r ->
            PStr (frame_id_of r) = PStr "tool0".
Proof.
  split; [reflexivity|].
  intros r Hr.
  apply (proj1 (init_frame_by_truth_value quoted_false_parameters None r Hr)).
  reflexivity.
Defined.

(** Whether the constructor succeeds does not depend on the transform. *)
Lemma init_succeeds_core
    (p : HandeyeCalibrationParameters) (t : option Transform.t) :
  is_ok (HandeyeCalibration_init (Some p) t) =
  is_str (if py_truthy (eye_in_hand p) then robot_effector_frame p
          else robot_base_frame p)
  && is_str (tracking_base_frame p).
Proof.
  unfold HandeyeCalibration_init.
  destruct (py_truthy (eye_in_hand p));
    [destruct (robot_effector_frame p) | destruct (robot_base_frame p)];
    destruct (tracking_base_frame p); reflexivity.
Qed.

(** X7: with parameters given, the constructor succeeds exactly when the
    frame it selects and [tracking_base_frame] are strings; the frame it
    does not select and the other fields are not looked at. *)
Theorem init_succeeds_iff
    (p : HandeyeCalibrationParameters) (t : option Transform.t) :
  (is_ok (HandeyeCalibration_init (Some p) t) = true <->
   is_str (if py_truthy (eye_in_hand p) then robot_effector_frame p
           else robot_base_frame p) = true /\
   is_str (tracking_base_frame p) = true) /\
  (forall e, HandeyeCalibration_init (Some p) t = Err e ->
     e = AssertionError "frame_id" \/ e = AssertionError "child_frame_id").
Proof.
  split.
  - rewrite init_succeeds_core. apply andb_true_iff.
  - unfold HandeyeCalibration_init.
    intros e [H | (ts1 & _ & [H | (ts2 & _ & H)]%bind_Err)]%bind_Err;
      try discriminate.
    + left.
      unfold TransformStamped.set_header_frame_id, Header.set_frame_id, assert_str in H.
      destruct (py_truthy (eye_in_hand p));
        [destruct (robot_effector_frame p) | destruct (robot_base_frame p)];
        simpl in H; (discriminate || (injection H as <-; reflexivity)).
    + right.
      unfold TransformStamped.set_child_frame_id, assert_str in H.
      destruct (tracking_base_frame p); simpl in H;
        (discriminate || (injection H as <-; reflexivity)).
Qed.

(** With [eye_in_hand] true the base frame may be anything. *)
Lemma init_succeeds_iff_demo :
  is_str (robot_base_frame unused_frame_parameters) = false /\
  is_ok (HandeyeCalibration_init (Some unused_frame_parameters) None) = true.
Proof.
  split; [reflexivity|].
  apply (proj1 (init_succeeds_iff unused_frame_parameters None)).
  split; reflexivity.
Defined.

(** ** Round trips *)

Lemma init_rebuilds
    (p : HandeyeCalibrationParameters) (t : option Transform.t)
    (r : HandeyeCalibration) :
  HandeyeCalibration_init (Some p) t = Ok r ->
  HandeyeCalibration_init (Some (parameters r)) (Some (transform_of r)) = Ok r.
Proof.
  intros Hr.
  destruct (HandeyeCalibration_init_Ok p t r Hr) as (-> & -> & _ & _).
  rewrite <- Hr. now destruct t.
Qed.

(** X8: a record that the constructor has returned, with or without a
    transform given, and with parameters of any types, is given back
    unchanged by [from_dict] after [to_dict]: parameters, transform, both
    frames and the time stamp. *)
Theorem constructed_roundtrip
    (p : HandeyeCalibrationParameters) (t : option Transform.t)
    (r : HandeyeCalibration) :
  HandeyeCalibration_init (Some p) t = Ok r ->
  from_dict (to_dict r) = Ok r.
Proof.
  intros Hr. rewrite from_dict_to_dict_init. eapply init_rebuilds, Hr.
Qed.

Lemma constructed_roundtrip_demo :
  HandeyeCalibration_init (Some cal1_parameters) (Some cal1_transform)
    = Ok cal1_record /\
  from_dict (to_dict cal1_record) = Ok cal1_record.
Proof.
  split; [reflexivity|].
  apply (constructed_roundtrip cal1_parameters (Some cal1_transform)).
  reflexivity.
Defined.

(** X9: what [from_dict] returns is a fixed point: converting it with
    [to_dict] and reading that with [from_dict] gives the same record. *)
Theorem from_dict_idempotent (in_dict : pyval) (r : HandeyeCalibration) :
  from_dict in_dict = Ok r ->
  from_dict (to_dict r) = Ok r.
Proof.
  intros Hfd.
  apply from_dict_Ok_inv in Hfd
    as (m & pd & tr & p & v & q & _ & _ & _ & _ & _ & _ & _ & _ & _ & _ & _ & Hinit).
  rewrite from_dict_to_dict_init. eapply init_rebuilds, Hinit.
Qed.

Lemma from_dict_idempotent_demo :
  from_dict (PDict seven_parameters_dict) = Ok cal1_record /\
  from_dict (to_dict cal1_record) = Ok cal1_record.
Proof.
  assert (from_dict (PDict seven_parameters_dict) = Ok cal1_record) as E
    by (vm_compute; reflexivity).
  split; [exact E|].
  apply (from_dict_idempotent (PDict seven_parameters_dict) cal1_record E).
Defined.

(** Reading an entry of a nested dictionary: [d[a][b]]. *)
Lemma to_dict_parameters (r : HandeyeCalibration) :
  py_getitem (to_dict r) "parameters" = Ok (asdict (parameters r)).
Proof. reflexivity. Qed.

Lemma asdict_lookup (p : HandeyeCalibrationParameters) (k : string) (v : pyval) :
  py_getitem (asdict p) k = Ok v <->
  (k = "name" /\ v = name p) \/
  (k = "eye_in_hand" /\ v = eye_in_hand p) \/
  (k = "robot_base_frame" /\ v = robot_base_frame p) \/
  (k = "robot_effector_frame" /\ v = robot_effector_frame p) \/
  (k = "tracking_base_frame" /\ v = tracking_base_frame p) \/
  (k = "tracking_marker_frame" /\ v = tracking_marker_frame p) \/
  (k = "freehand_robot_movement" /\ v = freehand_robot_movement p) \/
  (k = "move_group_namespace" /\ v = move_group_namespace p) \/
  (k = "move_group" /\ v = move_group p).
Proof.
  rewrite py_getitem_Ok. unfold asdict. split.
  - intros (d & [= <-] & Hk).
    repeat (apply lookup_insert_Some in Hk as [[<- <-] | [_ Hk]];
            [intuition congruence|]).
    now rewrite lookup_empty in Hk.
  - intros Hcase. eexists. split; [reflexivity|].
    destruct p.
    repeat (destruct Hcase as [[-> ->] | Hcase]; [vm_compute; reflexivity|]).
    destruct Hcase as [-> ->]. vm_compute; reflexivity.
Qed.

(** X10: after a successful [from_dict], [to_dict] of the record holds
    every entry of the input's ['parameters'] dictionary and, under the
    seven component keys, what the input's ['transformation'] dictionary
    holds there. *)
Theorem to_dict_from_dict_contains
    (m pd tr : gmap string pyval) (r : HandeyeCalibration) :
  m !! "parameters" = Some (PDict pd) ->
  m !! "transformation" = Some (PDict tr) ->
  from_dict (PDict m) = Ok r ->
  (forall k v, pd !! k = Some v ->
     (ps <- py_getitem (to_dict r) "parameters" ;; py_getitem ps k) = Ok v) /\
  (forall k, k ∈ transformation_keys ->
     (ts <- py_getitem (to_dict r) "transformation" ;; py_getitem ts k)
     = py_getitem (PDict tr) k).
Proof.
  intros Hpd Htr Hfd.
  apply from_dict_Ok_inv in Hfd
    as (m' & pd' & tr' & p & v & q & [= <-] & Htr' & Hpd' & Hkw
        & Hx & Hy & Hz & Hqx & Hqy & Hqz & Hqw & Hinit).
  rewrite Hpd in Hpd'. injection Hpd' as <-.
  rewrite Htr in Htr'. injection Htr' as <-.
  apply HandeyeCalibration_init_Ok in Hinit as (Hp & Ht & _ & _).
  split.
  - intros k w Hk. rewrite to_dict_parameters, Hp. cbn [bind].
    apply kwargs_Ok in Hkw
      as (Hdom & n & e & rb & re & tb & tm & fr
          & H1 & H2 & H3 & H4 & H5 & H6 & H7 & ->).
    apply asdict_lookup.
    assert (k ∈ (list_to_set field_names : gset string)) as Hin
      by (apply Hdom, elem_of_dom; eauto).
    apply elem_of_list_to_set in Hin.
    unfold field_names, required_fields, defaulted_fields in Hin. simpl in Hin.
    repeat (apply elem_of_cons in Hin as [-> | Hin];
            [simpl; rewrite ?Hk in *; simpl; intuition congruence|]).
    now apply elem_of_nil in Hin.
  - intros k Hk. destruct r as [rp [h c rt]].
    unfold transform_of in Ht. simpl in Ht. subst rt.
    unfold transformation_keys in Hk. simpl.
    repeat (apply elem_of_cons in Hk as [-> | Hk];
            [first [rewrite Hx | rewrite Hy | rewrite Hz | rewrite Hqx
                   | rewrite Hqy | rewrite Hqz | rewrite Hqw];
             reflexivity|]).
    now apply elem_of_nil in Hk.
Qed.

Lemma to_dict_from_dict_contains_demo :
  from_dict (PDict seven_parameters_dict) = Ok cal1_record /\
  (ps <- py_getitem (to_dict cal1_record) "parameters" ;;
   py_getitem ps "robot_effector_frame") = Ok (PStr "tool0") /\
  (ts <- py_getitem (to_dict cal1_record) "transformation" ;;
   py_getitem ts "qw") = py_getitem (PDict cal1_components) "qw".
Proof.
  assert (from_dict (PDict seven_parameters_dict) = Ok cal1_record) as E
    by (vm_compute; reflexivity).
  split; [exact E|].
  destruct (to_dict_from_dict_contains seven_parameters_dict seven_parameters
              cal1_components cal1_record eq_refl eq_refl E) as [Hps Hts].
  split.
  - apply Hps. reflexivity.
  - apply Hts. unfold transformation_keys. repeat constructor.
Defined.

(** X11: [to_dict] loses nothing but the header and the child frame: two
    records have the same dictionary exactly when they have the same
    parameters and the same transform. *)
Theorem to_dict_eq_iff (r1 r2 : HandeyeCalibration) :
  to_dict r1 = to_dict r2 <->
  parameters r1 = parameters r2 /\ transform_of r1 = transform_of r2.
Proof.
  split.
  - intros H.
    destruct r1 as [[n1 e1 rb1 re1 tb1 tm1 fr1 ns1 mg1]
                    [h1 c1 [[x1 y1 z1] [qx1 qy1 qz1 qw1]]]].
    destruct r2 as [[n2 e2 rb2 re2 tb2 tm2 fr2 ns2 mg2]
                    [h2 c2 [[x2 y2 z2] [qx2 qy2 qz2 qw2]]]].
    unfold transform_of. simpl.
    assert (forall a b,
              (s <- py_getitem (to_dict _) a ;; py_getitem s b) =
              (s <- py_getitem (to_dict _) a ;; py_getitem s b)) as Hpath
      by (intros a b; now rewrite H).
    pose proof (Hpath "parameters" "name") as E1.
    pose proof (Hpath "parameters" "eye_in_hand") as E2.
    pose proof (Hpath "parameters" "robot_base_frame") as E3.
    pose proof (Hpath "parameters" "robot_effector_frame") as E4.
    pose proof (Hpath "parameters" "tracking_base_frame") as E5.
    pose proof (Hpath "parameters" "tracking_marker_frame") as E6.
    pose proof (Hpath "parameters" "freehand_robot_movement") as E7.
    pose proof (Hpath "parameters" "move_group_namespace") as E8.
    pose proof (Hpath "parameters" "move_group") as E9.
    pose proof (Hpath "transformation" "x") as F1.
    pose proof (Hpath "transformation" "y") as F2.
    pose proof (Hpath "transformation" "z") as F3.
    pose proof (Hpath "transformation" "qx") as F4.
    pose proof (Hpath "transformation" "qy") as F5.
    pose proof (Hpath "transformation" "qz") as F6.
    pose proof (Hpath "transformation" "qw") as F7.
    clear Hpath H.
    vm_compute in E1, E2, E3, E4, E5, E6, E7, E8, E9, F1, F2, F3, F4, F5, F6, F7.
    split; congruence.
  - intros [Hp Ht]. unfold to_dict, translation_of, rotation_of.
    now rewrite Hp, Ht.
Qed.

Lemma to_dict_eq_iff_demo :
  parameters (with_frames "world" "elsewhere" cal1_record) = parameters cal1_record /\
  transform_of (with_frames "world" "elsewhere" cal1_record) = transform_of cal1_record /\
  to_dict (with_frames "world" "elsewhere" cal1_record) = to_dict cal1_record.
Proof.
  split; [reflexivity|]. split; [reflexivity|].
  apply (proj2 (to_dict_eq_iff _ cal1_record)). split; reflexivity.
Defined.

(** ** From the node to a record *)

Section provider_pipeline.
Context {Node : Type} {rclpy : RclpyNode Node}.

Lemma get_string_Err (node : Node) (k : string) (e : pyerr) :
  get_string node k = Err e -> get_parameter node k = Err e.
Proof.
  unfold get_string. intros [H | (? & _ & H)]%bind_Err; [exact H | discriminate].
Qed.

Lemma get_bool_Err (node : Node) (k : string) (e : pyerr) :
  get_bool node k = Err e -> get_parameter node k = Err e.
Proof.
  unfold get_bool. intros [H | (? & _ & H)]%bind_Err; [exact H | discriminate].
Qed.

(** X13: [read] raises nothing of its own: an exception of [read] is the
    exception the node raised for one of the seven names. *)
Theorem read_error_from_node (node : Node) (e : pyerr) :
  read node = Err e ->
  exists k, k ∈ required_fields /\ get_parameter node k = Err e.
Proof.
  unfold read, required_fields. intros H.
  apply bind_Err in H as [H%get_string_Err | (? & _ & H)];
    [eexists; split; [|exact H]; repeat constructor|].
  apply bind_Err in H as [H%get_bool_Err | (? & _ & H)];
    [eexists; split; [|exact H]; repeat constructor|].
  apply bind_Err in H as [H%get_string_Err | (? & _ & H)];
    [eexists; split; [|exact H]; repeat constructor|].
  apply bind_Err in H as [H%get_string_Err | (? & _ & H)];
    [eexists; split; [|exact H]; repeat constructor|].
  apply bind_Err in H as [H%get_string_Err | (? & _ & H)];
    [eexists; split; [|exact H]; repeat constructor|].
  apply bind_Err in H as [H%get_string_Err | (? & _ & H)];
    [eexists; split; [|exact H]; repeat constructor|].
  apply bind_Err in H as [H%get_bool_Err | (? & _ & H)];
    [eexists; split; [|exact H]; repeat constructor|].
  discriminate.
Qed.

(** X14: the parameters that [read] returns always make a record: the
    constructor accepts them with any transform or none, keeps them, and
    the record survives [to_dict] and [from_dict] unchanged. *)
Theorem read_then_construct
    (node : Node) (ret : HandeyeCalibrationParameters) (t : option Transform.t) :
  read node = Ok ret ->
  exists r,
    HandeyeCalibration_init (Some ret) t = Ok r /\
    parameters r = ret /\
    from_dict (to_dict r) = Ok r.
Proof.
  intros Hread.
  destruct (HandeyeCalibration_init_typed ret t (read_typed node ret Hread))
    as [r Hr].
  exists r. split; [exact Hr|]. split.
  - now apply HandeyeCalibration_init_Ok in Hr as (-> & _).
  - rewrite from_dict_to_dict_init. eapply init_rebuilds, Hr.
Qed.

Lemma declarations_keep (node node' : Node) (ks : list string) :
  (forall n k n' j, declare_parameter n k = Ok n' ->
     is_ok (get_parameter n j) = true -> is_ok (get_parameter n' j) = true) ->
  (forall k, k ∈ ks -> is_ok (get_parameter node k) = true) ->
  forall j, declare_parameter node j = Ok node' ->
  (forall n k n', declare_parameter n k = Ok n' -> is_ok (get_parameter n' k) = true) ->
  forall k, k ∈ j :: ks -> is_ok (get_parameter node' k) = true.
Proof.
  intros Hkeep Hks j Hj Hdecl k [-> | Hk]%elem_of_cons; eauto.
Qed.

(** X15: on a node where a declared parameter can be got, and stays so
    when another one is declared, the provider's constructor followed by
    [read] does not fail: once the seven declarations have gone through,
    [read] returns a record. *)
Theorem init_then_read (node node' : Node) :
  (forall n k n', declare_parameter n k = Ok n' ->
     is_ok (get_parameter n' k) = true) ->
  (forall n k n' j, declare_parameter n k = Ok n' ->
     is_ok (get_parameter n j) = true -> is_ok (get_parameter n' j) = true) ->
  HandeyeCalibrationParametersProvider_init node = Ok node' ->
  exists ret, read node' = Ok ret /\ params_typed ret = true.
Proof.
  intros Hdecl Hkeep Hinit.
  unfold HandeyeCalibrationParametersProvider_init in Hinit.
  apply bind_Ok in Hinit as (n1 & D1 & Hinit).
  apply bind_Ok in Hinit as (n2 & D2 & Hinit).
  apply bind_Ok in Hinit as (n3 & D3 & Hinit).
  apply bind_Ok in Hinit as (n4 & D4 & Hinit).
  apply bind_Ok in Hinit as (n5 & D5 & Hinit).
  apply bind_Ok in Hinit as (n6 & D6 & D7).
  assert (forall k, k ∈ required_fields -> is_ok (get_parameter node' k) = true) as Hall.
  { pose proof (declarations_keep node n1 [] Hkeep
                  ltac:(intros ? []%elem_of_nil) _ D1 Hdecl) as K1.
    pose proof (declarations_keep n1 n2 _ Hkeep K1 _ D2 Hdecl) as K2.
    pose proof (declarations_keep n2 n3 _ Hkeep K2 _ D3 Hdecl) as K3.
    pose proof (declarations_keep n3 n4 _ Hkeep K3 _ D4 Hdecl) as K4.
    pose proof (declarations_keep n4 n5 _ Hkeep K4 _ D5 Hdecl) as K5.
    pose proof (declarations_keep n5 n6 _ Hkeep K5 _ D6 Hdecl) as K6.
    pose proof (declarations_keep n6 node' _ Hkeep K6 _ D7 Hdecl) as K7.
    intros k Hk. apply K7. unfold required_fields in Hk.
    repeat (apply elem_of_cons in Hk as [-> | Hk]; [repeat constructor|]).
    now apply elem_of_nil in Hk. }
  destruct (read_total node') as [ret Hret].
  { intros k Hk. specialize (Hall k Hk).
    destruct (get_parameter node' k); [eauto | discriminate]. }
  exists ret. split; [exact Hret|]. eapply read_typed, Hret.
Qed.
End provider_pipeline.

Lemma read_error_from_node_demo :
  @read _ dict_node (delete "eye_in_hand" node1)
    = Err (ParameterNotDeclaredException "eye_in_hand") /\
  exists k, k ∈ required_fields /\
    @get_parameter _ dict_node (delete "eye_in_hand" node1) k
    = Err (ParameterNotDeclaredException "eye_in_hand").
Proof.
  split; [reflexivity|].
  apply (@read_error_from_node _ dict_node). reflexivity.
Defined.

Lemma read_then_construct_demo :
  @read _ dict_node node1 = Ok cal1_parameters /\
  exists r,
    HandeyeCalibration_init (Some cal1_parameters) (Some cal1_transform) = Ok r /\
    parameters r = cal1_parameters /\
    from_dict (to_dict r) = Ok r.
Proof.
  split; [reflexivity|].
  apply (@read_then_construct _ dict_node node1). reflexivity.
Defined.

Lemma dict_node_declared (n : gmap string RclParameter.t) (k : string)
    (n' : gmap string RclParameter.t) :
  dict_declare_parameter n k = Ok n' ->
  is_ok (dict_get_parameter n' k) = true.
Proof.
  unfold dict_declare_parameter, dict_get_parameter.
  destruct (n !! k); [discriminate|]. intros [= <-].
  now rewrite lookup_insert_eq.
Qed.

Lemma dict_node_keeps (n : gmap string RclParameter.t) (k : string)
    (n' : gmap string RclParameter.t) (j : string) :
  dict_declare_parameter n k = Ok n' ->
  is_ok (dict_get_parameter n j) = true ->
  is_ok (dict_get_parameter n' j) = true.
Proof.
  unfold dict_declare_parameter, dict_get_parameter.
  destruct (n !! k) eqn:Ek; [discriminate|]. intros [= <-].
  destruct (decide (k = j)) as [->|Hne].
  - now rewrite lookup_insert_eq.
  - now rewrite lookup_insert_ne.
Qed.

Lemma init_then_read_demo :
  is_ok (@HandeyeCalibrationParametersProvider_init _ dict_node ∅) = true /\
  forall node', @HandeyeCalibrationParametersProvider_init _ dict_node ∅ = Ok node' ->
    exists ret, @read _ dict_node node' = Ok ret /\ params_typed ret = true.
Proof.
  split; [reflexivity|].
  intros node'.
  apply (@init_then_read _ dict_node ∅ node' dict_node_declared dict_node_keeps).
Defined.

(** ** Text and files *)

Section persistence_pipeline.
Context {yaml : PyYAML} {FS : Type} {os : OS FS}.

(** X17: for a record [r] with typed parameters whose dictionary the YAML
    library writes and reads back unchanged, a file that holds
    [to_yaml r] is loaded by [from_filename] as a record with the
    parameters and the transform of [r]. *)
Theorem from_filename_of_to_yaml (fs : FS) (path : string) (r : HandeyeCalibration) :
  params_typed (parameters r) = true ->
  yaml_safe_load (yaml_dump (to_dict r)) = Ok (to_dict r) ->
  read_text fs path = Ok (to_yaml r) ->
  exists r',
    from_filename fs path = Ok r' /\
    parameters r' = parameters r /\
    transform_of r' = transform_of r /\
    from_filename fs path = from_dict (to_dict r).
Proof.
  intros Ht Hyaml Hfile.
  assert (from_filename fs path = from_dict (to_dict r)) as E.
  { unfold from_filename, open_read. rewrite Hfile. cbn [bind].
    unfold from_yaml, to_yaml. now rewrite Hyaml. }
  destruct (HandeyeCalibration_init_typed (parameters r) (Some (transform_of r)) Ht)
    as [r' Hr'].
  exists r'. rewrite E, from_dict_to_dict_init.
  split; [exact Hr'|].
  apply HandeyeCalibration_init_Ok in Hr' as (Hp & Htr & _ & _).
  split; [exact Hp|]. split; [exact Htr|]. reflexivity.
Qed.

(** X18: [to_file] writes no file and never looks at the record: when the
    default directory exists it leaves the file system as it is, when it
    does not, the file system afterwards is the one [os.makedirs] leaves;
    the outcome is the same for any two records. *)
Theorem to_file_effect (fs : FS) (c1 c2 : HandeyeCalibration) :
  (os_path_exists fs DIRECTORY = true -> fst (to_file fs c1) = fs) /\
  (os_path_exists fs DIRECTORY = false ->
   fst (to_file fs c1) = fst (os_makedirs fs DIRECTORY)) /\
  to_file fs c1 = to_file fs c2.
Proof.
  rewrite !to_file_fails.
  destruct (os_path_exists fs DIRECTORY); simpl.
  - repeat split; [discriminate].
  - repeat split; [discriminate|].
    now destruct (os_makedirs fs DIRECTORY).
Qed.
End persistence_pipeline.

Lemma from_filename_of_to_yaml_demo :
  @read_text _ simple_os fs1 "/tmp/cal1.yaml"
    = Ok (@to_yaml one_document_yaml cal1_record) /\
  exists r',
    @from_filename one_document_yaml _ simple_os fs1 "/tmp/cal1.yaml" = Ok r' /\
    parameters r' = parameters cal1_record /\
    transform_of r' = transform_of cal1_record /\
    @from_filename one_document_yaml _ simple_os fs1 "/tmp/cal1.yaml"
      = from_dict (to_dict cal1_record).
Proof.
  split; [reflexivity|].
  apply (@from_filename_of_to_yaml one_document_yaml _ simple_os
           fs1 "/tmp/cal1.yaml" cal1_record); reflexivity.
Defined.

Lemma to_file_effect_demo :
  @os_path_exists _ simple_os fs1 (@DIRECTORY _ simple_os) = false /\
  fst (@to_file one_document_yaml _ simple_os fs1 cal1_record)
    = fst (@os_makedirs _ simple_os fs1 (@DIRECTORY _ simple_os)).
Proof.
  split; [reflexivity|].
  apply (proj1 (proj2 (@to_file_effect one_document_yaml _ simple_os
                         fs1 cal1_record cal1_record))).
  reflexivity.
Defined.

(** ** Which dictionaries load *)

#[local] Arguments HandeyeCalibration_init : simpl never.

(** X19: [from_dict] returns on a dictionary exactly when its
    ['parameters'] entry is a dictionary that the dataclass accepts as
    keyword arguments, its ['transformation'] entry is a dictionary that
    holds a float under each of the seven component keys, and the
    constructor accepts the parameters (the frames it uses are
    strings). *)
Theorem from_dict_succeeds_iff (m : gmap string pyval) :
  is_ok (from_dict (PDict m)) = true <->
  exists (pd tr : gmap string pyval) p,
    m !! "parameters" = Some (PDict pd) /\
    m !! "transformation" = Some (PDict tr) /\
    HandeyeCalibrationParameters_kwargs (PDict pd) = Ok p /\
    (forall k, k ∈ transformation_keys -> exists f, tr !! k = Some (PFloat f)) /\
    is_ok (HandeyeCalibration_init (Some p) None) = true.
Proof.
  split.
  - destruct (from_dict (PDict m)) as [r|] eqn:E; [intros _ | discriminate].
    apply from_dict_Ok_inv in E
      as (m' & pd & tr & p & v & q & [= <-] & Htr & Hpd & Hkw
          & Hx & Hy & Hz & Hqx & Hqy & Hqz & Hqw & Hinit).
    exists pd, tr, p. repeat split; try assumption.
    + intros k Hk. unfold transformation_keys in Hk.
      repeat (apply elem_of_cons in Hk as [-> | Hk]; [eauto|]).
      now apply elem_of_nil in Hk.
    + rewrite init_succeeds_core,
        <- (init_succeeds_core p
              (Some {| Transform.translation := v; Transform.rotation := q |})).
      now rewrite Hinit.
  - intros (pd & tr & p & Hpd & Htr & Hkw & Hall & Hinit).
    unfold from_dict. simpl. rewrite Htr, Hpd. cbn [bind]. rewrite Hkw. cbn [bind].
    unfold transformation_keys in Hall.
    destruct (Hall "x") as [x Hx]; [repeat constructor|].
    destruct (Hall "y") as [y Hy]; [repeat constructor|].
    destruct (Hall "z") as [z Hz]; [repeat constructor|].
    destruct (Hall "qx") as [qx Hqx]; [repeat constructor|].
    destruct (Hall "qy") as [qy Hqy]; [repeat constructor|].
    destruct (Hall "qz") as [qz Hqz]; [repeat constructor|].
    destruct (Hall "qw") as [qw Hqw]; [repeat constructor|].
    simpl. rewrite Hx, Hy, Hz, Hqx, Hqy, Hqz, Hqw. simpl.
    rewrite init_succeeds_core, <- (init_succeeds_core p None).
    exact Hinit.
Qed.

Lemma from_dict_succeeds_iff_demo :
  is_ok (from_dict (PDict seven_parameters_dict)) = true /\
  exists (pd tr : gmap string pyval) p,
    seven_parameters_dict !! "parameters" = Some (PDict pd) /\
    seven_parameters_dict !! "transformation" = Some (PDict tr) /\
    HandeyeCalibrationParameters_kwargs (PDict pd) = Ok p /\
    (forall k, k ∈ transformation_keys -> exists f, tr !! k = Some (PFloat f)) /\
    is_ok (HandeyeCalibration_init (Some p) None) = true.
Proof.
  assert (is_ok (from_dict (PDict seven_parameters_dict)) = true) as E
    by (vm_compute; reflexivity).
  split; [exact E|].
  apply (proj1 (from_dict_succeeds_iff seven_parameters_dict)). exact E.
Defined.
